(** * Interactive data analysis dashboard (streamlit_app.py)

    A shallow embedding of the dashboard script: the loaded DataFrame, the
    column lists the script derives from the column dtypes, and the view
    branches (correlation, box plot, time series, download).

    Conventions of the model.
    - A DataFrame is the ordered list of its named columns; a column carries
      its dtype in its constructor, as a pandas Series does.
    - float64 cells are exact rationals or NaN ([None]); rounding and
      infinities are outside the model.
    - datetime64 cells are nanoseconds since 1970-01-01 or NaT ([None]).
    - The pandas routines the script calls ([select_dtypes], [corr],
      [nlargest], [resample], [read_csv], [to_csv]) are modelled after their
      documented behaviour; each definition names the routine it stands for. *)

From Stdlib Require Import String Ascii Bool Arith ZArith QArith Qabs Lia Lqa List.
From Stdlib Require Import Permutation Sorted.
From Stdlib Require Import Decimal DecimalString DecimalZ DecimalPos.
Import ListNotations.

Open Scope string_scope.
Open Scope list_scope.

(* ===================================================================== *)
(** * Data model                                                          *)
(* ===================================================================== *)

Inductive dtype : Type :=
| Float64
| Int64
| Bool
| Object
| Datetime64.

Definition dtype_eqb (a b : dtype) : bool :=
  match a, b with
  | Float64, Float64 | Int64, Int64 | Bool, Bool
  | Object, Object | Datetime64, Datetime64 => true
  | _, _ => false
  end.

(** Nanoseconds since the epoch, the integer view of a pandas Timestamp. *)
Definition Timestamp := Z.

Inductive Series : Type :=
| ColFloat (xs : list (option Q))
| ColInt (xs : list Z)
| ColBool (xs : list bool)
| ColObject (xs : list (option string))
| ColDatetime (xs : list (option Timestamp)).

Definition dtype_of (s : Series) : dtype :=
  match s with
  | ColFloat _ => Float64
  | ColInt _ => Int64
  | ColBool _ => Bool
  | ColObject _ => Object
  | ColDatetime _ => Datetime64
  end.

Definition DataFrame := list (string * Series).

(** [df.columns] *)
Definition columns (df : DataFrame) : list string := map fst df.

Definition dtype_in (include : list dtype) (d : dtype) : bool :=
  existsb (dtype_eqb d) include.

(** [df.select_dtypes(include=[...])]: the sub-frame of the columns whose
    dtype is listed, in their stored order. *)
Definition select_dtypes (include : list dtype) (df : DataFrame) : DataFrame :=
  filter (fun c => dtype_in include (dtype_of (snd c))) df.

(** Lines 63-64 and 114 of the script. *)
Definition numeric_cols (df : DataFrame) : list string :=
  columns (select_dtypes [Float64; Int64] df).

Definition datetime_cols (df : DataFrame) : list string :=
  columns (select_dtypes [Datetime64] df).

Definition category_cols (df : DataFrame) : list string :=
  columns (select_dtypes [Object] df).

(** Positions rather than names, to speak about one column of a frame whose
    names might repeat. *)
Definition in_list_at (include : list dtype) (df : DataFrame) (i : nat) : bool :=
  match nth_error df i with
  | Some c => dtype_in include (dtype_of (snd c))
  | None => false
  end.

Definition is_numeric (df : DataFrame) (i : nat) : bool :=
  in_list_at [Float64; Int64] df i.
Definition is_temporal (df : DataFrame) (i : nat) : bool :=
  in_list_at [Datetime64] df i.
Definition is_categorical (df : DataFrame) (i : nat) : bool :=
  in_list_at [Object] df i.

(* ===================================================================== *)
(** * Correlation: [df[numeric_cols].corr()]                              *)
(* ===================================================================== *)

(** The float view of a numeric column, as [corr] and [mean] take it. *)
Definition to_float (s : Series) : list (option Q) :=
  match s with
  | ColFloat xs => xs
  | ColInt xs => map (fun z => Some (inject_Z z)) xs
  | ColBool _ | ColObject _ | ColDatetime _ => []
  end.

Definition Qsum (l : list Q) : Q := fold_right Qplus 0 l.

Definition Qlen (l : list Q) : Q := inject_Z (Z.of_nat (length l)).

Definition Qmean (l : list Q) : Q := Qsum l / Qlen l.

(** Pairwise deletion: the rows on which both columns hold a value. *)
Fixpoint pairwise_valid (x y : list (option Q)) : list (Q * Q) :=
  match x, y with
  | Some a :: x', Some b :: y' => (a, b) :: pairwise_valid x' y'
  | _ :: x', _ :: y' => pairwise_valid x' y'
  | _, _ => []
  end.



(** Deviations from the mean, and the sums [corr] accumulates from them. *)
Definition deviations (l : list Q) : list Q :=
  map (fun v => v - Qmean l) l.

Definition dot (u v : list Q) : Q :=
  Qsum (map (fun p => fst p * snd p) (combine u v)).

Definition ssqdm (l : list Q) : Q := dot (deviations l) (deviations l).

Definition covxy (ps : list (Q * Q)) : Q :=
  dot (deviations (map fst ps)) (deviations (map snd ps)).

(** Pearson's coefficient of two columns under [DataFrame.corr]'s defaults
    (method pearson, min_periods 1): NaN when no row has both values or when
    the divisor [sqrt (ssqdm_x * ssqdm_y)] is zero.

    The coefficient r = covxy / sqrt (ssqdm_x * ssqdm_y) is irrational in
    general; the model stores the rational r * |r|, which has the sign of r,
    orders like r, and equals -1, 0 or 1 exactly when r does. *)
Definition pearson (x y : list (option Q)) : option Q :=
  let ps := pairwise_valid x y in
  let sx := ssqdm (map fst ps) in
  let sy := ssqdm (map snd ps) in
  let c := covxy ps in
  if (length ps <? 1)%nat then None
  else if Qeq_bool (sx * sy) 0 then None
  else Some (Qred (c * Qabs c / (sx * sy))).

(** The square result of [corr]: the labels and the rows of values. *)
Record CorrMatrix : Type := {
  cm_columns : list string;
  cm_values : list (list (option Q))
}.

Definition corr (num : DataFrame) : CorrMatrix :=
  let cols := map (fun c => to_float (snd c)) num in
  {| cm_columns := columns num;
     cm_values := map (fun x => map (fun y => pearson x y) cols) cols |}.

(** [corr_matrix.iloc[i, j]] *)
Definition iloc (m : CorrMatrix) (i j : nat) : option Q :=
  nth j (nth i (cm_values m) []) None.

(** One dict appended to [corr_pairs] (lines 90-94). *)
Record CorrRow : Type := {
  variable1 : string;
  variable2 : string;
  correlation : option Q
}.

(** The index pairs the two nested [range] loops visit (lines 88-89). *)
Definition pair_indices (n : nat) : list (nat * nat) :=
  flat_map (fun i => map (fun j => (i, j)) (seq (i + 1) (n - (i + 1)))) (seq 0 n).

Definition corr_row (m : CorrMatrix) (ij : nat * nat) : CorrRow :=
  {| variable1 := nth (fst ij) (cm_columns m) "";
     variable2 := nth (snd ij) (cm_columns m) "";
     correlation := iloc m (fst ij) (snd ij) |}.

Definition corr_pairs (m : CorrMatrix) : list CorrRow :=
  map (corr_row m) (pair_indices (length (cm_columns m))).

(** ** [nlargest] *)

(** Stable insertion into a list sorted by descending key: [x] goes in front
    of the first element whose key is not strictly greater. *)
Fixpoint insert_desc {A : Type} (x : Q * A) (l : list (Q * A)) : list (Q * A) :=
  match l with
  | [] => [x]
  | y :: l' =>
      if Qlt_le_dec (fst x) (fst y) then y :: insert_desc x l' else x :: l
  end.

Definition sort_desc {A : Type} (l : list (Q * A)) : list (Q * A) :=
  fold_right insert_desc [] l.

(** The rows whose key is a number, with that key ([dropna]). *)
Definition dropped {A : Type} (key : A -> option Q) (rows : list A) : list (Q * A) :=
  flat_map (fun r => match key r with Some q => [(q, r)] | None => [] end) rows.

(** The rows whose key is NaN, in their original order. *)
Definition nan_rows {A : Type} (key : A -> option Q) (rows : list A) : list A :=
  filter (fun r => match key r with Some _ => false | None => true end) rows.

(** [frame.nlargest(n, column)] with keep='first': the rows with a valid key
    in descending order, equal keys in order of appearance, followed by the
    rows whose key is NaN, cut to [n] rows. *)
Definition nlargest {A : Type} (key : A -> option Q) (n : nat) (rows : list A) : list A :=
  firstn n (map snd (sort_desc (dropped key rows)) ++ nan_rows key rows).

(** ** The order of the result *)






(** Column order on index pairs. *)
Definition pair_lt (a b : nat * nat) : Prop :=
  (fst a < fst b)%nat \/ (fst a = fst b /\ (snd a < snd b)%nat).

(** [pd.DataFrame(corr_pairs).nlargest(5, 'Correlation')]: a frame built from
    an empty list has no 'Correlation' column, and the lookup raises. *)
Definition corr_df_nlargest (rows : list CorrRow) : option (list CorrRow) :=
  match rows with
  | [] => None
  | _ => Some (nlargest correlation 5 rows)
  end.

(* ===================================================================== *)
(** * Time buckets: [series.resample(freq).mean()]                        *)
(* ===================================================================== *)

Inductive Frequency : Type := Day | Week | Month | Year.

(** [freq_map] (line 140): the offset alias handed to [resample]. *)
Definition freq_map (f : Frequency) : string :=
  match f with
  | Day => "D"
  | Week => "W"
  | Month => "M"
  | Year => "Y"
  end.

Definition ns_per_day : Z := 86400000000000.

(** Day number (days since 1970-01-01) of a timestamp. *)
Definition day_of (t : Timestamp) : Z := (t / ns_per_day)%Z.

(** Proleptic Gregorian calendar: (year, month, day) of a day number. *)
Definition civil_from_days (d : Z) : Z * Z * Z :=
  (let z := d + 719468 in
   let era := z / 146097 in
   let doe := z - era * 146097 in
   let yoe := (doe - doe / 1460 + doe / 36524 - doe / 146096) / 365 in
   let doy := doe - (365 * yoe + yoe / 4 - yoe / 100) in
   let mp := (5 * doy + 2) / 153 in
   let dd := doy - (153 * mp + 2) / 5 + 1 in
   let m := if mp <? 10 then mp + 3 else mp - 9 in
   let y := yoe + era * 400 + (if m <=? 2 then 1 else 0) in
   (y, m, dd))%Z.

Definition days_from_civil (y m d : Z) : Z :=
  (let y' := if m <=? 2 then y - 1 else y in
   let era := y' / 400 in
   let yoe := y' - era * 400 in
   let mp := if 2 <? m then m - 3 else m + 9 in
   let doy := (153 * mp + 2) / 5 + d - 1 in
   let doe := yoe * 365 + yoe / 4 - yoe / 100 + doy in
   era * 146097 + doe - 719468)%Z.

(** The ordinal of the bucket a timestamp falls in; consecutive buckets have
    consecutive ordinals.  "D" buckets are calendar days, "W" buckets the
    weeks Monday to Sunday (1970-01-01 was a Thursday), "M" calendar months
    and "Y" calendar years. *)
Definition bucket (f : Frequency) (t : Timestamp) : Z :=
  match f with
  | Day => day_of t
  | Week => ((day_of t + 3) / 7)%Z
  | Month => let '(y, m, _) := civil_from_days (day_of t) in (y * 12 + (m - 1))%Z
  | Year => let '(y, _, _) := civil_from_days (day_of t) in y
  end.

(** The timestamp that labels a bucket in the result: the day itself for
    "D"; the closing Sunday, the last day of the month and 31 December for
    the right-labelled "W", "M" and "Y". *)
Definition bucket_label (f : Frequency) (k : Z) : Timestamp :=
  match f with
  | Day => (k * ns_per_day)%Z
  | Week => ((7 * k + 3) * ns_per_day)%Z
  | Month => ((days_from_civil ((k + 1) / 12) ((k + 1) mod 12 + 1) 1 - 1) * ns_per_day)%Z
  | Year => ((days_from_civil (k + 1) 1 1 - 1) * ns_per_day)%Z
  end.

(** The rows of the indexed series that carry a timestamp; rows indexed by
    NaT belong to no bucket. *)
Fixpoint timed_rows (index : list (option Timestamp)) (values : list (option Q))
  : list (Timestamp * option Q) :=
  match index, values with
  | Some t :: index', v :: values' => (t, v) :: timed_rows index' values'
  | None :: index', _ :: values' => timed_rows index' values'
  | _, _ => []
  end.

(** The values that fall in bucket [k], missing ones skipped. *)
Definition bucket_values (f : Frequency) (k : Z) (rows : list (Timestamp * option Q))
  : list Q :=
  flat_map (fun r => if (bucket f (fst r) =? k)%Z
                     then match snd r with Some v => [v] | None => [] end
                     else []) rows.

(** [mean] of a bucket: NaN when the bucket holds no value. *)
Definition bucket_mean (l : list Q) : option Q :=
  match l with
  | [] => None
  | _ => Some (Qred (Qmean l))
  end.

Definition Zmin_list (d : Z) (l : list Z) : Z := fold_right Z.min d l.
Definition Zmax_list (d : Z) (l : list Z) : Z := fold_right Z.max d l.

(** The ordinals from [lo] to [hi], both included. *)
Definition bucket_range (lo hi : Z) : list Z :=
  map (fun i => (lo + Z.of_nat i)%Z) (seq 0 (Z.to_nat (hi - lo + 1))).

(** One entry of the resampled series. *)
Definition ResampledSeries := list (Timestamp * option Q).

(** [series.resample(freq).mean()] over a datetime index: the bins run
    without interruption from the bucket of the earliest timestamp to the
    bucket of the latest one, and every bin yields an entry. *)
Definition resample_mean (f : Frequency) (rows : list (Timestamp * option Q))
  : ResampledSeries :=
  match map (fun r => bucket f (fst r)) rows with
  | [] => []
  | k0 :: ks =>
      map (fun k => (bucket_label f k, bucket_mean (bucket_values f k rows)))
          (bucket_range (Zmin_list k0 ks) (Zmax_list k0 ks))
  end.

(* ===================================================================== *)
(** * Loading and exporting: [pd.read_csv], [df.to_csv(index=False)]      *)
(* ===================================================================== *)

(** The uploaded text after tokenizing: the header fields and, per data
    line, its fields, each field being the bytes between two delimiters.
    Quoted fields are outside the model. *)
Record CsvText : Type := {
  csv_header : list string;
  csv_rows : list (list string)
}.

(** pandas' default [na_values]. *)
Definition na_values : list string :=
  [""; "#N/A"; "#N/A N/A"; "#NA"; "-1.#IND"; "-1.#QNAN"; "-NaN"; "-nan";
   "1.#IND"; "1.#QNAN"; "<NA>"; "N/A"; "NA"; "NULL"; "NaN"; "None"; "n/a";
   "nan"; "null"].

Definition is_na (s : string) : bool := existsb (String.eqb s) na_values.

Definition true_values : list string := ["True"; "TRUE"; "true"].
Definition false_values : list string := ["False"; "FALSE"; "false"].

Definition parse_bool (s : string) : option bool :=
  if existsb (String.eqb s) true_values then Some true
  else if existsb (String.eqb s) false_values then Some false
  else None.

Definition int64_min : Z := (- 2 ^ 63)%Z.
Definition int64_max : Z := (2 ^ 63 - 1)%Z.

(** An integer literal: an optional sign and at least one digit, within the
    int64 range. *)
Definition parse_int (s : string) : option Z :=
  let signed :=
    match s with
    | String "-" rest => option_map (fun u => (- Z.of_uint u)%Z) (NilZero.uint_of_string rest)
    | String "+" rest => option_map Z.of_uint (NilZero.uint_of_string rest)
    | _ => option_map Z.of_uint (NilZero.uint_of_string s)
    end in
  match signed with
  | Some z => if ((int64_min <=? z) && (z <=? int64_max))%Z then Some z else None
  | None => None
  end.

Definition is_ws (c : ascii) : bool :=
  let n := nat_of_ascii c in (n =? 32)%nat || ((9 <=? n) && (n <=? 13))%nat.

Definition is_digit (c : ascii) : bool :=
  let n := nat_of_ascii c in ((48 <=? n) && (n <=? 57))%nat.

Definition is_sign (c : ascii) : bool := Ascii.eqb c "+" || Ascii.eqb c "-".

Fixpoint skip_while (p : ascii -> bool) (l : list ascii) : list ascii :=
  match l with
  | c :: l' => if p c then skip_while p l' else l
  | [] => []
  end.

Definition skip_one (p : ascii -> bool) (l : list ascii) : list ascii :=
  match l with
  | c :: l' => if p c then l' else l
  | [] => []
  end.

(** The shape of every field the float conversion accepts: white space, a
    sign, digits, a point, digits, an exponent with its sign and digits,
    white space.  (The shape is a little wider than the literals: it also
    covers a lone point or a lone exponent mark.) *)
Definition float_shaped (s : string) : bool :=
  let l1 := skip_one is_sign (skip_while is_ws (list_ascii_of_string s)) in
  let l2 := skip_while is_digit l1 in
  let l3 := skip_while is_digit (skip_one (Ascii.eqb ".") l2) in
  let l4 := match l3 with
            | c :: l' =>
                if Ascii.eqb c "e" || Ascii.eqb c "E"
                then skip_while is_digit (skip_one is_sign l')
                else l3
            | [] => []
            end in
  match skip_while is_ws l4 with
  | [] => true
  | _ :: _ => false
  end.

(** Fields made of white space, signs and the letters of inf, infinity and
    nan only: the special values of the float conversion are among them. *)
Definition special_shaped (s : string) : bool :=
  forallb (fun c => is_ws c || is_sign c
                    || existsb (Ascii.eqb c) (list_ascii_of_string "infatyINFATY"))
          (list_ascii_of_string s).

(** A field no numeric or boolean conversion accepts. *)
Definition is_text (s : string) : bool :=
  match parse_bool s with
  | Some _ => false
  | None => negb (float_shaped s || special_shaped s)
  end.

(** What the type inference makes of one field. *)
Inductive FieldClass : Type :=
| FNa
| FInt (z : Z)
| FBool (b : bool)
| FText
| FOther.

Definition classify_field (s : string) : FieldClass :=
  if is_na s then FNa
  else match parse_int s with
       | Some z => FInt z
       | None =>
           match parse_bool s with
           | Some b => FBool b
           | None => if is_text s then FText else FOther
           end
       end.

Definition is_FText (c : FieldClass) : bool :=
  match c with FText => true | _ => false end.

(** Stop at the first [None]. *)
Fixpoint traverse {A B : Type} (f : A -> option B) (l : list A) : option (list B) :=
  match l with
  | [] => Some []
  | a :: l' =>
      match f a, traverse f l' with
      | Some b, Some bs => Some (b :: bs)
      | _, _ => None
      end
  end.

(** The cell of an object column: the field as it stands, NaN for a
    missing-value marker. *)
Definition object_cell (s : string) : option string :=
  if is_na s then None else Some s.

(** The column the inference builds from the fields of one column, within
    the modelled fragment; [None] for a column outside it (decimal and
    exponent literals, integers beyond int64, booleans with gaps).
    - no data line at all: an empty object column;
    - some field is text: object, every field kept as it was read;
    - every field an integer: int64;
    - integers and missing-value markers: float64, NaN for the markers;
    - every field a boolean word: bool. *)
Definition infer_column (fields : list string) : option Series :=
  let cs := map classify_field fields in
  match fields with
  | [] => Some (ColObject [])
  | _ =>
    if existsb is_FText cs then Some (ColObject (map object_cell fields))
    else match traverse (fun c => match c with FInt z => Some z | _ => None end) cs with
         | Some zs => Some (ColInt zs)
         | None =>
           match traverse (fun c => match c with
                                    | FInt z => Some (Some (inject_Z z))
                                    | FNa => Some None
                                    | _ => None
                                    end) cs with
           | Some qs => Some (ColFloat qs)
           | None =>
             match traverse (fun c => match c with FBool b => Some b | _ => None end) cs with
             | Some bs => Some (ColBool bs)
             | None => None
             end
           end
         end
  end.

(** A line with a single empty field is a blank line ([skip_blank_lines]). *)
Definition is_blank (row : list string) : bool :=
  match row with
  | [s] => String.eqb s ""
  | _ => false
  end.

Definition data_rows (t : CsvText) : list (list string) :=
  filter (fun r => negb (is_blank r)) (csv_rows t).

Fixpoint nodupb (l : list string) : bool :=
  match l with
  | [] => true
  | x :: l' => negb (existsb (String.eqb x) l') && nodupb l'
  end.

(** A field that is written the way it is read: it holds no delimiter, no
    quote character and no line break, so neither side quotes it. *)
Definition plain_char (c : ascii) : bool :=
  let n := nat_of_ascii c in
  negb ((n =? 44) || (n =? 34) || (n =? 10) || (n =? 13))%nat.

Definition plain_field (s : string) : bool :=
  forallb plain_char (list_ascii_of_string s).

(** The inputs the model of [read_csv] covers: a non-empty header of
    distinct, non-empty names (so that no name is mangled or made up), every
    data line with exactly one field per header, few enough cells for the
    parser to infer each column's type in one pass, and plain fields
    throughout. *)
Definition well_shaped (t : CsvText) : bool :=
  negb (List.length (csv_header t) =? 0)%nat
  && nodupb (csv_header t)
  && forallb (fun h => negb (String.eqb h "")) (csv_header t)
  && forallb (fun r => (List.length r =? List.length (csv_header t))%nat) (data_rows t)
  && (List.length (data_rows t) * List.length (csv_header t) <? 2 ^ 18)%nat
  && forallb plain_field (csv_header t)
  && forallb (forallb plain_field) (data_rows t).

(** The fields of column [j]. *)
Definition column_fields (t : CsvText) (j : nat) : list string :=
  map (fun r => nth j r "") (data_rows t).

(** [pd.read_csv(uploaded_file)] on the modelled fragment. *)
Definition read_csv (t : CsvText) : option DataFrame :=
  if well_shaped t then
    traverse (fun jh => option_map (fun s => (snd jh, s))
                                   (infer_column (column_fields t (fst jh))))
             (combine (seq 0 (List.length (csv_header t))) (csv_header t))
  else None.

(** ** Export *)

Definition string_of_Z (z : Z) : string := NilZero.string_of_int (Z.to_int z).

(** [repr] of a float with an integral value below 10^15; other values are
    outside the modelled fragment. *)
Definition float_repr (q : Q) : option string :=
  let q' := Qred q in
  if (Zpos (Qden q') =? 1)%Z && (Z.abs (Qnum q') <? 10 ^ 15)%Z
  then Some (string_of_Z (Qnum q') ++ ".0")%string
  else None.

Definition pad2 (z : Z) : string :=
  if (z <? 10)%Z then ("0" ++ string_of_Z z)%string else string_of_Z z.

(** A timestamp at midnight, written as the date; other timestamps are
    outside the modelled fragment. *)
Definition date_repr (t : Timestamp) : option string :=
  let '(y, m, d) := civil_from_days (day_of t) in
  if ((t mod ns_per_day =? 0) && (1000 <=? y) && (y <=? 9999))%Z
  then Some (string_of_Z y ++ "-" ++ pad2 m ++ "-" ++ pad2 d)%string
  else None.

(** The text of every cell of a column; a missing value is the empty
    string. *)
Definition render_column (s : Series) : option (list string) :=
  match s with
  | ColFloat xs =>
      traverse (fun c => match c with Some q => float_repr q | None => Some "" end) xs
  | ColInt xs => Some (map string_of_Z xs)
  | ColBool xs => Some (map (fun b : bool => if b then "True" else "False") xs)
  | ColObject xs => Some (map (fun c => match c with Some s => s | None => "" end) xs)
  | ColDatetime xs =>
      traverse (fun c => match c with Some t => date_repr t | None => Some "" end) xs
  end.

Definition series_length (s : Series) : nat :=
  match s with
  | ColFloat xs => List.length xs
  | ColInt xs => List.length xs
  | ColBool xs => List.length xs
  | ColObject xs => List.length xs
  | ColDatetime xs => List.length xs
  end.

(** [len(df)] *)
Definition n_rows (df : DataFrame) : nat :=
  match df with
  | [] => 0
  | c :: _ => series_length (snd c)
  end.

(** [df.to_csv(index=False)]: the header line, then one line per row. *)
Definition to_csv (df : DataFrame) : option CsvText :=
  match traverse (fun c => render_column (snd c)) df with
  | Some cols =>
      Some {| csv_header := columns df;
              csv_rows := map (fun i => map (fun col => nth i col "") cols)
                              (seq 0 (n_rows df)) |}
  | None => None
  end.

(* ===================================================================== *)
(** * A date parser for the worked examples                               *)
(* ===================================================================== *)

(** The separator of a year-month-day text, read off the first value that
    is not missing, the way the format of a column is guessed from its
    first value. *)
Fixpoint guess_separator (xs : list (option string)) : ascii :=
  match xs with
  | Some s :: xs' =>
      match list_ascii_of_string s with
      | _ :: _ :: _ :: _ :: c :: _ => c
      | _ => "-"%char
      end
  | None :: xs' => guess_separator xs'
  | [] => "-"%char
  end.

Definition digits_value (l : list ascii) : option Z :=
  if forallb is_digit l
  then option_map Z.of_uint (NilZero.uint_of_string (string_of_list_ascii l))
  else None.

Definition is_leap (y : Z) : bool :=
  ((y mod 4 =? 0) && (negb (y mod 100 =? 0) || (y mod 400 =? 0)))%Z.

Definition days_in_month (y m : Z) : Z :=
  (if m =? 2 then (if is_leap y then 29 else 28)
   else if (m =? 4) || (m =? 6) || (m =? 9) || (m =? 11) then 30 else 31)%Z.

(** Texts of the form YYYY-MM-DD or YYYY/MM/DD naming a calendar date of
    the years a nanosecond timestamp covers in full (1678 to 2261): the
    timestamp of its midnight.  Anything else is rejected. *)
Definition parse_ymd (sep : ascii) (s : string) : option (option Timestamp) :=
  match list_ascii_of_string s with
  | [y1; y2; y3; y4; s1; m1; m2; s2; d1; d2] =>
      match digits_value [y1; y2; y3; y4], digits_value [m1; m2], digits_value [d1; d2] with
      | Some y, Some m, Some d =>
          if (Ascii.eqb sep "-" || Ascii.eqb sep "/")
             && Ascii.eqb s1 sep && Ascii.eqb s2 sep
             && (1678 <=? y)%Z && (y <=? 2261)%Z
             && (1 <=? m)%Z && (m <=? 12)%Z && (1 <=? d)%Z && (d <=? days_in_month y m)%Z
          then Some (Some (days_from_civil y m d * ns_per_day)%Z)
          else None
      | _, _, _ => None
      end
  | _ => None
  end.

(* ===================================================================== *)
(** * The script                                                          *)
(* ===================================================================== *)

Inductive VizType : Type :=
| DistributionPlots
| CorrelationAnalysis
| ScatterPlots
| BoxPlots
| TimeSeriesAnalysis.

(** The state of the widgets when the script runs: the chosen view, the
    position chosen in each select box (by its label), and whether the
    download button was pressed. *)
Record Widgets : Type := {
  viz_type : VizType;
  choice : string -> nat;
  download_clicked : bool
}.

(** [st.selectbox(label, options)]: the chosen option, the first one when
    the stored position is past the end, [None] when there is no option. *)
Definition selectbox {A : Type} (w : Widgets) (label : string) (options : list A)
  : option A :=
  match nth_error options (choice w label) with
  | Some a => Some a
  | None => hd_error options
  end.

(** Figures are recorded by the arguments they are built from. *)
Inductive Figure : Type :=
| FigHistogram (x : option string)
| FigViolin (y : option string)
| FigHeatmap (m : CorrMatrix)
| FigScatter (x y : option string) (color : option string)
| FigBox (x : string) (y : option string)
| FigLine (series : ResampledSeries).

(** What a run puts on the page below the view selector. *)
Inductive Element : Type :=
| Subheader (text : string)
| PlotlyChart (fig : Figure)
| Dataframe (rows : list CorrRow)
| Warning (text : string)
| Info (text : string)
| DownloadButton (data : CsvText).

(** [df[col]]: the columns stored under the label. *)
Definition getitem (df : DataFrame) (col : string) : list Series :=
  map snd (filter (fun c => String.eqb (fst c) col) df).

(** [df[col] = s] *)
Definition setitem (df : DataFrame) (col : string) (s : Series) : DataFrame :=
  map (fun c => if String.eqb (fst c) col then (fst c, s) else c) df.

(** The state of a view branch: the frame, which a branch may replace
    columns of, the elements rendered so far, the exception that stopped
    the run if any, and the columns handed to [pd.to_datetime]. *)
Record BranchResult : Type := {
  br_df : DataFrame;
  br_elements : list Element;
  br_raised : option string;
  br_parsed : list string
}.

Definition rendered (df : DataFrame) (els : list Element) : BranchResult :=
  {| br_df := df; br_elements := els; br_raised := None; br_parsed := [] |}.

(** ** Correlation Analysis (lines 77-96) *)

(** [df[numeric_cols]] *)
Definition numeric_frame (df : DataFrame) : DataFrame :=
  select_dtypes [Float64; Int64] df.

(** The rows of the tables a run shows. *)
Definition shown_rows (els : list Element) : list CorrRow :=
  flat_map (fun e => match e with Dataframe rows => rows | _ => [] end) els.

(** [corr_matrix = df[numeric_cols].corr()] (line 79) *)
Definition corr_matrix (df : DataFrame) : CorrMatrix := corr (numeric_frame df).

Definition correlation_branch (df : DataFrame) : BranchResult :=
  if (1 <? List.length (numeric_cols df))%nat then
    let heatmap := PlotlyChart (FigHeatmap (corr_matrix df)) in
    match corr_df_nlargest (corr_pairs (corr_matrix df)) with
    | Some top =>
        rendered df [heatmap; Subheader "Top 5 Correlations"; Dataframe top]
    | None =>
        {| br_df := df;
           br_elements := [heatmap; Subheader "Top 5 Correlations"];
           br_raised := Some "KeyError";
           br_parsed := [] |}
    end
  else rendered df [].

(** ** Distribution, scatter and box plots (lines 66-75, 98-120) *)

Definition distribution_branch (w : Widgets) (df : DataFrame) : BranchResult :=
  rendered df
    [PlotlyChart (FigHistogram (selectbox w "Select column for histogram" (numeric_cols df)));
     PlotlyChart (FigViolin (selectbox w "Select column for KDE plot" (numeric_cols df)))].

Definition scatter_branch (w : Widgets) (df : DataFrame) : BranchResult :=
  let x_col := selectbox w "Select X axis" (numeric_cols df) in
  let y_col := selectbox w "Select Y axis" (numeric_cols df) in
  let color_col := selectbox w "Select color variable (optional)" ("None" :: columns df) in
  match color_col with
  | Some c =>
      if String.eqb c "None"
      then rendered df [PlotlyChart (FigScatter x_col y_col None)]
      else rendered df [PlotlyChart (FigScatter x_col y_col (Some c))]
  | None => rendered df [PlotlyChart (FigScatter x_col y_col None)]
  end.

Definition box_branch (w : Widgets) (df : DataFrame) : BranchResult :=
  let numeric_col := selectbox w "Select numeric column" (numeric_cols df) in
  if (0 <? List.length (category_cols df))%nat then
    match selectbox w "Select category column" (category_cols df) with
    | Some category_col => rendered df [PlotlyChart (FigBox category_col numeric_col)]
    | None => rendered df []
    end
  else rendered df [Warning "No categorical columns found for box plots"].

(** ** Data Overview and Quick Stats (lines 38-47) *)








(** ** The three column lists as a classification *)

Definition memberships (df : DataFrame) (i : nat) : list bool :=
  [is_numeric df i; is_temporal df i; is_categorical df i].

Definition count_true (l : list bool) : nat :=
  List.length (filter (fun b : bool => b) l).

(** Every column is in exactly one of the three lists. *)
Definition classification_partitions (df : DataFrame) : Prop :=
  forall i, (i < List.length df)%nat -> count_true (memberships df i) = 1%nat.

(** ** Inputs of the worked examples *)

(** An upload with a column of boolean words. *)
Definition csv_flags : CsvText :=
  {| csv_header := ["flag"; "size"];
     csv_rows := [["True"; "3"]; ["False"; "4"]] |}.

Definition df_flags : DataFrame :=
  [("flag", ColBool [true; false]); ("size", ColInt [3; 4]%Z)].

(** A frame with a date column in text form, a numeric column and a text
    column that holds no dates. *)
Definition df_dates : DataFrame :=
  [("date", ColObject [Some "2024-01-01"; Some "2024-01-05"]);
   ("value", ColInt [10; 20]%Z);
   ("note", ColObject [Some "x"; Some "not-a-date"])].


(** A constant numeric column next to two that vary. *)
Definition df_const : DataFrame :=
  [("a", ColInt [1; 1; 1]%Z);
   ("b", ColInt [1; 2; 3]%Z);
   ("c", ColFloat [Some (1 # 2); None; Some 3]);
   ("d", ColInt [3; 2; 1]%Z);
   ("name", ColObject [Some "x"; Some "y"; Some "z"])].


(** The widgets as they stand when a view has just been chosen. *)
Definition widgets_for (v : VizType) : Widgets :=
  {| viz_type := v; choice := fun _ => 0%nat; download_clicked := false |}.


(** Midnight of 1 January and of 5 January 2024, with a value each. *)
Definition rows_jan : list (Timestamp * option Q) :=
  [(1704067200000000000%Z, Some 10); (1704412800000000000%Z, Some 20)].








(** A frame whose only column is a date column in text form. *)
Definition df_only_dates : DataFrame :=
  [("date", ColObject [Some "2024-01-01"; Some "2024-01-05"])].

(** ** Time Series Analysis (lines 122-148) *)

Section Dashboard.

(** [pd.to_datetime] on a column of texts: a format is settled for the
    column, every text is read under it, a missing value becomes NaT, and
    the call raises as soon as one text cannot be read.  A text may itself
    read as NaT.  The parser is left open. *)
Variable DateFormat : Type.
Variable guess_format : list (option string) -> DateFormat.
Variable parse_with : DateFormat -> string -> option (option Timestamp).

Definition parse_cell (f : DateFormat) (c : option string) : option (option Timestamp) :=
  match c with
  | Some s => parse_with f s
  | None => Some None
  end.

Definition to_datetime (xs : list (option string)) : option (list (option Timestamp)) :=
  traverse (parse_cell (guess_format xs)) xs.

(** [pd.to_datetime(df[col])] for [col] among the object columns: a label
    that several columns share makes [df[col]] a frame, which the call
    rejects. *)
Definition to_datetime_col (df : DataFrame) (col : string) : option Series :=
  match getitem df col with
  | [ColObject xs] => option_map ColDatetime (to_datetime xs)
  | _ => None
  end.

(** The upgrade of one column as the spec words it: a text column every
    value of which reads as a date becomes temporal; any other column stays
    as it is. *)
Definition fully_parses (s : Series) : bool :=
  match s with
  | ColObject xs => match to_datetime xs with Some _ => true | None => false end
  | _ => false
  end.

Definition upgraded (s : Series) : Series :=
  match s with
  | ColObject xs =>
      match to_datetime xs with
      | Some ts => ColDatetime ts
      | None => s
      end
  | _ => s
  end.

Definition upgraded_frame (df : DataFrame) : DataFrame :=
  map (fun c => (fst c, upgraded (snd c))) df.

(** The frame while the loop runs: the columns visited so far upgraded, the
    others as loaded. *)
Definition upgraded_among (done : list string) (c : string * Series) : string * Series :=
  (fst c, if existsb (String.eqb (fst c)) done then upgraded (snd c) else snd c).

Record FallbackState : Type := {
  fs_df : DataFrame;
  fs_date_cols : list string;
  fs_parsed : list string
}.

(** One turn of the loop of lines 127-132; the bare [except] swallows the
    failure. *)
Definition try_column (st : FallbackState) (col : string) : FallbackState :=
  match to_datetime_col (fs_df st) col with
  | Some s =>
      {| fs_df := setitem (fs_df st) col s;
         fs_date_cols := fs_date_cols st ++ [col];
         fs_parsed := fs_parsed st ++ [col] |}
  | None =>
      {| fs_df := fs_df st;
         fs_date_cols := fs_date_cols st;
         fs_parsed := fs_parsed st ++ [col] |}
  end.

(** Lines 124-132. *)
Definition datetime_fallback (df : DataFrame) : FallbackState :=
  let date_cols := datetime_cols df in
  let st := {| fs_df := df; fs_date_cols := date_cols; fs_parsed := [] |} in
  if (List.length date_cols =? 0)%nat
  then fold_left try_column (category_cols df) st
  else st.

(** [df.set_index(date_col)[value_col].resample(freq_map[freq]).mean()]:
    a missing [value_col] is not a label of the frame; an index without any
    timestamp has no range to cut into bins, unless it is empty. *)
Definition df_time (df : DataFrame) (date_col : string) (value_col : option string)
    (f : Frequency) : string + ResampledSeries :=
  match value_col with
  | None => inl "KeyError"
  | Some vc =>
      match getitem df date_col, getitem df vc with
      | ColDatetime index :: _, v :: _ =>
          match index, timed_rows index (to_float v) with
          | [], _ => inr []
          | _ :: _, [] => inl "ValueError"
          | _ :: _, rows => inr (resample_mean f rows)
          end
      | _, _ => inl "KeyError"
      end
  end.

Definition frequencies : list Frequency := [Day; Week; Month; Year].

Definition timeseries_branch (w : Widgets) (df : DataFrame) : BranchResult :=
  let st := datetime_fallback df in
  let df' := fs_df st in
  let date_cols := fs_date_cols st in
  if (0 <? List.length date_cols)%nat then
    match selectbox w "Select date column" date_cols with
    | Some date_col =>
        let value_col := selectbox w "Select value column" (numeric_cols df) in
        let freq := match selectbox w "Select time frequency" frequencies with
                    | Some f => f
                    | None => Day
                    end in
        match df_time df' date_col value_col freq with
        | inr series =>
            {| br_df := df'; br_elements := [PlotlyChart (FigLine series)];
               br_raised := None; br_parsed := fs_parsed st |}
        | inl e =>
            {| br_df := df'; br_elements := [];
               br_raised := Some e; br_parsed := fs_parsed st |}
        end
    | None =>
        {| br_df := df'; br_elements := []; br_raised := None; br_parsed := fs_parsed st |}
    end
  else
    {| br_df := df';
       br_elements := [Warning "No datetime columns found for time series analysis"];
       br_raised := None; br_parsed := fs_parsed st |}.

(** ** The visualization section and the download (lines 56-158) *)

Definition view (w : Widgets) (df : DataFrame) : BranchResult :=
  match viz_type w with
  | DistributionPlots => distribution_branch w df
  | CorrelationAnalysis => correlation_branch df
  | ScatterPlots => scatter_branch w df
  | BoxPlots => box_branch w df
  | TimeSeriesAnalysis => timeseries_branch w df
  end.

(** The outcome of one run of the script on a loaded frame.  [None]: the
    export leaves the modelled fragment of [to_csv]. *)
Definition run_on (w : Widgets) (df : DataFrame) : option BranchResult :=
  let r := view w df in
  match br_raised r with
  | Some _ => Some r
  | None =>
      if download_clicked w then
        match to_csv (br_df r) with
        | Some csv =>
            Some {| br_df := br_df r;
                    br_elements := br_elements r ++ [DownloadButton csv];
                    br_raised := None;
                    br_parsed := br_parsed r |}
        | None => None
        end
      else Some r
  end.

(** One run of the script (lines 32-160): Streamlit runs it from the top at
    every interaction, with the upload and the widget state as they stand.
    [None]: the upload leaves the modelled fragment of [read_csv]. *)
Definition run (uploaded_file : option CsvText) (w : Widgets) : option BranchResult :=
  match uploaded_file with
  | Some file =>
      match read_csv file with
      | Some df => run_on w df
      | None => None
      end
  | None =>
      Some (rendered [] [Info "Please upload a CSV file to begin analysis"])
  end.


(* ===================================================================== *)
(** * Properties                                                          *)
(* ===================================================================== *)

Lemma dtype_eqb_eq (a b : dtype) : dtype_eqb a b = true <-> a = b.
Proof. destruct a, b; simpl; split; intro H; congruence. Qed.

Lemma in_columns_select (include : list dtype) (df : DataFrame) (name : string) :
  In name (columns (select_dtypes include df)) <->
  exists s, In (name, s) df /\ dtype_in include (dtype_of s) = true.
Proof.
  unfold columns, select_dtypes. rewrite in_map_iff. split.
  - intros [[n s] [Hn Hin]]. simpl in Hn. subst n.
    apply filter_In in Hin. exists s. exact Hin.
  - intros [s [Hin Hd]]. exists (name, s). split; [reflexivity|].
    apply filter_In. split; assumption.
Qed.

(** ** Column classification *)

Lemma count_true_memberships (df : DataFrame) (i : nat) (c : string * Series) :
  nth_error df i = Some c ->
  count_true (memberships df i) =
  match dtype_of (snd c) with Bool => 0%nat | _ => 1%nat end.
Proof.
  intros H. unfold memberships, is_numeric, is_temporal, is_categorical, in_list_at.
  rewrite H. destruct (dtype_of (snd c)); reflexivity.
Qed.

(** C8 (amended): the numeric, temporal and categorical lists never share a
    column, and a column is in one of them exactly when its dtype is
    float64, int64, datetime64 or object; a column of another
    representation (boolean) is in none of the three. *)
Theorem classification_disjoint (df : DataFrame) (i : nat) (c : string * Series) :
  nth_error df i = Some c ->
  (count_true (memberships df i) <= 1)%nat /\
  (count_true (memberships df i) = 1%nat <-> dtype_of (snd c) <> Bool) /\
  (dtype_of (snd c) = Bool ->
   is_numeric df i = false /\ is_temporal df i = false /\ is_categorical df i = false).
Proof.
  intros H. rewrite (count_true_memberships df i c H).
  unfold is_numeric, is_temporal, is_categorical, in_list_at. rewrite H.
  destruct (dtype_of (snd c)); repeat split; try lia; try congruence;
    try discriminate; intros; try reflexivity; try congruence; try lia.
Qed.

(** ** The fallback conversion of text columns *)

Lemma traverse_fails {A B : Type} (f : A -> option B) (l : list A) (a : A) :
  In a l -> f a = None -> traverse f l = None.
Proof.
  induction l as [|x l IH]; intros Hin Hf; [contradiction|].
  simpl. destruct Hin as [->|Hin].
  - rewrite Hf. reflexivity.
  - rewrite (IH Hin Hf). destruct (f x); reflexivity.
Qed.

Lemma getitem_unique (df : DataFrame) (col : string) (s : Series) :
  NoDup (columns df) -> In (col, s) df -> getitem df col = [s].
Proof.
  unfold getitem, columns. induction df as [|[n x] df IH]; intros Hnd Hin.
  - contradiction.
  - simpl in *. inversion Hnd as [|? ? Hnotin Hnd']; subst.
    destruct Hin as [Heq|Hin].
    + inversion Heq; subst. rewrite String.eqb_refl. simpl. f_equal.
      assert (Hnone : forall l, ~ In col (map fst l) ->
                filter (fun c : string * Series => String.eqb (fst c) col) l = []).
      { induction l as [|[m y] l IHl]; intros Hn; [reflexivity|].
        simpl in *. destruct (String.eqb_spec m col) as [->|_].
        - exfalso. apply Hn. left. reflexivity.
        - apply IHl. intros H. apply Hn. right. exact H. }
      rewrite (Hnone df Hnotin). reflexivity.
    + destruct (String.eqb_spec n col) as [->|_].
      * exfalso. apply Hnotin. apply in_map_iff. exists (col, s). split; auto.
      * apply IH; assumption.
Qed.

Lemma unique_series (df : DataFrame) (col : string) (s1 s2 : Series) :
  NoDup (columns df) -> In (col, s1) df -> In (col, s2) df -> s1 = s2.
Proof.
  intros Hnd H1 H2.
  pose proof (getitem_unique df col s1 Hnd H1) as E1.
  pose proof (getitem_unique df col s2 Hnd H2) as E2.
  congruence.
Qed.

Lemma NoDup_columns_filter (keep : string * Series -> bool) (df : DataFrame) :
  NoDup (columns df) -> NoDup (columns (filter keep df)).
Proof.
  unfold columns. induction df as [|c df IH]; simpl; intros Hnd; [constructor|].
  inversion Hnd as [|? ? Hfresh Hrest]; subst.
  destruct (keep c); simpl; auto.
  constructor; auto.
  rewrite in_map_iff. intros [x [Hx Hin]]. apply Hfresh.
  apply filter_In in Hin. rewrite in_map_iff. exists x. tauto.
Qed.

Lemma columns_upgraded_among (done : list string) (df : DataFrame) :
  columns (map (upgraded_among done) df) = columns df.
Proof. unfold columns. rewrite map_map. reflexivity. Qed.

Lemma existsb_eqb_In (n : string) (l : list string) :
  existsb (String.eqb n) l = true <-> In n l.
Proof.
  rewrite existsb_exists. split.
  - intros [x [Hin He]]. apply String.eqb_eq in He. subst. exact Hin.
  - intros H. exists n. split; [exact H|apply String.eqb_refl].
Qed.

Lemma try_column_step (df : DataFrame) (done : list string) (st : FallbackState)
    (col : string) (xs : list (option string)) :
  NoDup (columns df) ->
  In (col, ColObject xs) df ->
  ~ In col done ->
  fs_df st = map (upgraded_among done) df ->
  try_column st col =
  {| fs_df := map (upgraded_among (done ++ [col])) df;
     fs_date_cols := fs_date_cols st
                     ++ (if fully_parses (ColObject xs) then [col] else []);
     fs_parsed := fs_parsed st ++ [col] |}.
Proof.
  intros Hnd Hin Hnot Hdf. unfold try_column, to_datetime_col.
  assert (Hcur : getitem (fs_df st) col = [ColObject xs]).
  { rewrite Hdf. apply getitem_unique.
    - rewrite columns_upgraded_among. exact Hnd.
    - apply in_map_iff. exists (col, ColObject xs). split; [|exact Hin].
      unfold upgraded_among. simpl.
      destruct (existsb (String.eqb col) done) eqn:E; [|reflexivity].
      apply existsb_eqb_In in E. contradiction. }
  rewrite Hcur. simpl.
  assert (Hrest : forall c, In c df -> fst c <> col ->
            upgraded_among (done ++ [col]) c = upgraded_among done c).
  { intros c _ Hne. unfold upgraded_among. rewrite existsb_app. simpl.
    destruct (String.eqb_spec (fst c) col) as [E|_]; [contradiction|].
    rewrite !orb_false_r. reflexivity. }
  assert (Hhere : forall c, In c df -> fst c = col ->
            c = (col, ColObject xs) /\
            upgraded_among (done ++ [col]) c = (col, upgraded (ColObject xs))).
  { intros [n s] Hc Hn. simpl in Hn. subst n.
    assert (s = ColObject xs) by (eapply unique_series; eauto). subst s.
    split; [reflexivity|]. unfold upgraded_among. rewrite existsb_app. simpl.
    rewrite String.eqb_refl, orb_true_r. reflexivity. }
  destruct (to_datetime xs) as [ts|] eqn:Hts; simpl; f_equal.
  - rewrite Hdf. unfold setitem. rewrite map_map. apply map_ext_in.
    intros c Hc. simpl.
    destruct (String.eqb_spec (fst c) col) as [E|Hne].
    + destruct (Hhere c Hc E) as [_ ->]. simpl. rewrite Hts, E. reflexivity.
    + rewrite (Hrest c Hc Hne). reflexivity.
  - rewrite Hdf. apply map_ext_in. intros c Hc.
    destruct (String.eqb_spec (fst c) col) as [E|Hne].
    + destruct (Hhere c Hc E) as [-> ->]. simpl. rewrite Hts.
      unfold upgraded_among. simpl.
      destruct (existsb (String.eqb col) done); simpl; rewrite ?Hts; reflexivity.
    + rewrite (Hrest c Hc Hne). reflexivity.
  - rewrite app_nil_r. reflexivity.
Qed.

Lemma fallback_loop (df : DataFrame) (todo : DataFrame) :
  NoDup (columns df) ->
  forall (done : list string) (st : FallbackState),
  (forall c, In c todo -> In c df /\ dtype_of (snd c) = Object) ->
  NoDup (columns todo) ->
  (forall n, In n (columns todo) -> ~ In n done) ->
  fs_df st = map (upgraded_among done) df ->
  fold_left try_column (columns todo) st =
  {| fs_df := map (upgraded_among (done ++ columns todo)) df;
     fs_date_cols := fs_date_cols st
                     ++ columns (filter (fun c => fully_parses (snd c)) todo);
     fs_parsed := fs_parsed st ++ columns todo |}.
Proof.
  intros Hnd. induction todo as [|[n s] todo IH]; intros done st Hsub Hnd' Hfresh Hdf.
  - simpl. rewrite !app_nil_r. destruct st; simpl in *. congruence.
  - simpl columns. simpl fold_left.
    destruct (Hsub (n, s) (or_introl eq_refl)) as [Hin Hobj]. simpl in Hobj.
    destruct s as [| | |xs|]; try discriminate.
    inversion Hnd' as [|? ? Hn Hnd'']; subst.
    rewrite (try_column_step df done st n xs Hnd Hin
               (Hfresh n (or_introl eq_refl)) Hdf).
    rewrite (IH (done ++ [n])).
    + simpl. rewrite <- !app_assoc. simpl. f_equal.
      destruct (to_datetime xs); reflexivity.
    + intros c Hc. apply Hsub. right. exact Hc.
    + exact Hnd''.
    + intros m Hm Hin'. apply in_app_or in Hin'. destruct Hin' as [Hd|[->|[]]].
      * apply (Hfresh m); [right; exact Hm|exact Hd].
      * apply Hn. exact Hm.
    + reflexivity.
Qed.

Lemma upgraded_not_object (s : Series) :
  dtype_of s <> Object -> upgraded s = s.
Proof. destruct s; simpl; intros H; try reflexivity. congruence. Qed.

Lemma fully_parses_object (s : Series) :
  fully_parses s = true -> dtype_in [Object] (dtype_of s) = true.
Proof. destruct s; simpl; intros H; try discriminate. reflexivity. Qed.

Lemma filter_filter_implied {A : Type} (p q : A -> bool) (l : list A) :
  (forall a, p a = true -> q a = true) ->
  filter p (filter q l) = filter p l.
Proof.
  intros H. induction l as [|a l IH]; [reflexivity|]. simpl.
  destruct (q a) eqn:Hq; simpl.
  - rewrite IH. reflexivity.
  - destruct (p a) eqn:Hp; [|exact IH]. rewrite (H a Hp) in Hq. discriminate.
Qed.

Lemma datetime_fallback_scan (df : DataFrame) :
  NoDup (columns df) ->
  datetime_cols df = [] ->
  datetime_fallback df =
  {| fs_df := upgraded_frame df;
     fs_date_cols := columns (filter (fun c => fully_parses (snd c)) df);
     fs_parsed := category_cols df |}.
Proof.
  intros Hnd Hnone. unfold datetime_fallback. rewrite Hnone. simpl.
  unfold category_cols.
  rewrite (fallback_loop df (select_dtypes [Object] df) Hnd []).
  - simpl. f_equal.
    + unfold upgraded_frame. apply map_ext_in. intros [n s] Hc.
      unfold upgraded_among. simpl. f_equal.
      destruct (existsb (String.eqb n) (columns (select_dtypes [Object] df))) eqn:E;
        [reflexivity|].
      symmetry. apply upgraded_not_object. intros Hobj.
      assert (In n (columns (select_dtypes [Object] df))) as Hn.
      { apply in_columns_select. exists s. split; [exact Hc|].
        rewrite Hobj. reflexivity. }
      apply existsb_eqb_In in Hn. congruence.
    + unfold select_dtypes. rewrite filter_filter_implied; [reflexivity|].
      intros a. apply fully_parses_object.
  - intros c Hc. apply filter_In in Hc. destruct Hc as [Hin Hd]. split; [exact Hin|].
    destruct (dtype_of (snd c)); simpl in Hd; try discriminate. reflexivity.
  - apply NoDup_columns_filter. exact Hnd.
  - intros n _ [].
  - simpl. unfold upgraded_among. simpl.
    rewrite <- (map_id df) at 1. apply map_ext. intros [n s]. reflexivity.
Qed.

Lemma datetime_fallback_guard (df : DataFrame) :
  datetime_cols df <> [] ->
  datetime_fallback df =
  {| fs_df := df; fs_date_cols := datetime_cols df; fs_parsed := [] |}.
Proof.
  intros H. unfold datetime_fallback.
  destruct (datetime_cols df) as [|d l]; [congruence|reflexivity].
Qed.

Lemma other_views_keep_frame (w : Widgets) (df : DataFrame) :
  viz_type w <> TimeSeriesAnalysis ->
  br_df (view w df) = df /\ br_parsed (view w df) = [].
Proof.
  intros H. unfold view. destruct (viz_type w); try congruence.
  - split; reflexivity.
  - unfold correlation_branch.
    destruct (1 <? List.length (numeric_cols df))%nat; [|split; reflexivity].
    destruct (corr_df_nlargest _); split; reflexivity.
  - unfold scatter_branch.
    destruct (selectbox w _ ("None" :: columns df)) as [c|]; [|split; reflexivity].
    destruct (String.eqb c "None"); split; reflexivity.
  - unfold box_branch.
    destruct (0 <? List.length (category_cols df))%nat; [|split; reflexivity].
    destruct (selectbox w _ (category_cols df)); split; reflexivity.
Qed.

Lemma timeseries_view_fallback (w : Widgets) (df : DataFrame) :
  br_df (timeseries_branch w df) = fs_df (datetime_fallback df) /\
  br_parsed (timeseries_branch w df) = fs_parsed (datetime_fallback df).
Proof.
  unfold timeseries_branch.
  destruct (0 <? List.length (fs_date_cols (datetime_fallback df)))%nat;
    [|split; reflexivity].
  destruct (selectbox w _ (fs_date_cols (datetime_fallback df)));
    [|split; reflexivity].
  destruct (df_time _ _ _ _); split; reflexivity.
Qed.

(** C1: in the time-series view, when the frame has no datetime column,
    every text column is handed to the date parser in stored order, each
    one that parses in full is replaced in place by its temporal form and
    its label appended to the temporal set, in that order; when a datetime
    column exists the scan does not run; no other view converts or parses
    anything. *)
Theorem fallback_conversion (df : DataFrame) (Hnames : NoDup (columns df)) :
  (forall w, viz_type w = TimeSeriesAnalysis ->
     br_df (view w df) = fs_df (datetime_fallback df) /\
     br_parsed (view w df) = fs_parsed (datetime_fallback df)) /\
  (datetime_cols df = [] ->
     fs_df (datetime_fallback df) = upgraded_frame df /\
     fs_date_cols (datetime_fallback df) =
       columns (filter (fun c => fully_parses (snd c)) df) /\
     fs_parsed (datetime_fallback df) = category_cols df) /\
  (datetime_cols df <> [] ->
     fs_df (datetime_fallback df) = df /\
     fs_date_cols (datetime_fallback df) = datetime_cols df /\
     fs_parsed (datetime_fallback df) = []) /\
  (forall w, viz_type w <> TimeSeriesAnalysis ->
     br_df (view w df) = df /\ br_parsed (view w df) = []).
Proof.
  repeat split.
  - unfold view. rewrite H. apply timeseries_view_fallback.
  - unfold view. rewrite H. apply timeseries_view_fallback.
  - rewrite (datetime_fallback_scan df Hnames H). reflexivity.
  - rewrite (datetime_fallback_scan df Hnames H). reflexivity.
  - rewrite (datetime_fallback_scan df Hnames H). reflexivity.
  - rewrite (datetime_fallback_guard df H). reflexivity.
  - rewrite (datetime_fallback_guard df H). reflexivity.
  - rewrite (datetime_fallback_guard df H). reflexivity.
  - apply other_views_keep_frame. exact H.
  - apply other_views_keep_frame. exact H.
Qed.

Lemma selectbox_In {A : Type} (w : Widgets) (label : string) (options : list A) (a : A) :
  selectbox w label options = Some a -> In a options.
Proof.
  unfold selectbox. destruct (nth_error options (choice w label)) eqn:E.
  - intros H. inversion H; subst. eapply nth_error_In. exact E.
  - destruct options; simpl; intros H; inversion H; subst. left. reflexivity.
Qed.

Lemma to_datetime_fails (xs : list (option string)) (s : string) :
  In (Some s) xs -> parse_with (guess_format xs) s = None -> to_datetime xs = None.
Proof.
  intros Hin Hp. unfold to_datetime.
  apply (traverse_fails _ xs (Some s) Hin). exact Hp.
Qed.

Lemma timeseries_raise_origin (w : Widgets) (df : DataFrame) (e : string) :
  br_raised (timeseries_branch w df) = Some e ->
  exists date_col f,
    In date_col (fs_date_cols (datetime_fallback df)) /\
    df_time (fs_df (datetime_fallback df)) date_col
            (selectbox w "Select value column" (numeric_cols df)) f = inl e.
Proof.
  unfold timeseries_branch.
  destruct (0 <? List.length (fs_date_cols (datetime_fallback df)))%nat;
    [|discriminate].
  destruct (selectbox w "Select date column" (fs_date_cols (datetime_fallback df)))
    as [dc|] eqn:Hsel; [|discriminate].
  match goal with
  | |- context [df_time ?a ?b ?c ?d] => destruct (df_time a b c d) eqn:Hdt
  end; simpl; intros H; [|discriminate].
  inversion H; subst. eexists. eexists. split; [|exact Hdt].
  eapply selectbox_In. exact Hsel.
Qed.

(** C7: a text column holding a value the date parser rejects comes out of
    the fallback as it went in: stored at the same place with the same
    texts, not in the temporal set, still among the categorical columns.
    The failure stops nothing: the scan still visits every text column,
    and an exception raised by the view comes from resampling a column of
    the temporal set, which this column is not part of. *)
Theorem unparsed_column_stays_text (df : DataFrame) (col : string)
    (xs : list (option string)) (s : string) (i : nat) :
  NoDup (columns df) ->
  nth_error df i = Some (col, ColObject xs) ->
  In (Some s) xs ->
  parse_with (guess_format xs) s = None ->
  nth_error (fs_df (datetime_fallback df)) i = Some (col, ColObject xs) /\
  ~ In col (fs_date_cols (datetime_fallback df)) /\
  In col (category_cols (fs_df (datetime_fallback df))) /\
  (datetime_cols df = [] -> fs_parsed (datetime_fallback df) = category_cols df) /\
  (forall w e, br_raised (timeseries_branch w df) = Some e ->
     exists date_col f,
       date_col <> col /\
       In date_col (fs_date_cols (datetime_fallback df)) /\
       df_time (fs_df (datetime_fallback df)) date_col
               (selectbox w "Select value column" (numeric_cols df)) f = inl e).
Proof.
  intros Hnd Hnth Hin Hp.
  pose proof (to_datetime_fails xs s Hin Hp) as Hfail.
  pose proof (nth_error_In df i Hnth) as Hmem.
  assert (Hsame : nth_error (fs_df (datetime_fallback df)) i = Some (col, ColObject xs)).
  { destruct (datetime_cols df) as [|d l] eqn:Hd.
    - rewrite (datetime_fallback_scan df Hnd Hd). simpl. unfold upgraded_frame.
      rewrite nth_error_map, Hnth. simpl. rewrite Hfail. reflexivity.
    - rewrite datetime_fallback_guard by congruence. simpl. exact Hnth. }
  assert (Hnot : ~ In col (fs_date_cols (datetime_fallback df))).
  { destruct (datetime_cols df) as [|d l] eqn:Hd.
    - rewrite (datetime_fallback_scan df Hnd Hd). simpl. unfold columns.
      intros H. apply in_map_iff in H. destruct H as [[n x] [Hn Hx]].
      simpl in Hn. subst n. apply filter_In in Hx. destruct Hx as [Hx Hfp].
      assert (x = ColObject xs) by (eapply unique_series; eauto). subst x.
      simpl in Hfp. rewrite Hfail in Hfp. discriminate.
    - rewrite datetime_fallback_guard by congruence. simpl.
      intros H. apply in_columns_select in H. destruct H as [x [Hx Hdt]].
      assert (x = ColObject xs) by (eapply unique_series; eauto). subst x.
      discriminate. }
  split; [exact Hsame|]. split; [exact Hnot|]. split; [|split].
  - apply in_columns_select. exists (ColObject xs). split; [|reflexivity].
    eapply nth_error_In. exact Hsame.
  - intros Hd. rewrite (datetime_fallback_scan df Hnd Hd). reflexivity.
  - intros w e He. destruct (timeseries_raise_origin w df e He) as [dc [f [Hdc Hdt]]].
    exists dc, f. split; [|split; assumption].
    intros ->. contradiction.
Qed.

Lemma nodupb_NoDup (l : list string) : nodupb l = true -> NoDup l.
Proof.
  induction l as [|x l IH]; simpl; intros H; [constructor|].
  apply andb_true_iff in H. destruct H as [Hx Hl]. constructor; [|auto].
  intros Hin. apply existsb_eqb_In in Hin. rewrite Hin in Hx. discriminate.
Qed.

(** ** Pearson correlation *)

























(** ** Sorting *)

Lemma StronglySorted_app {A : Type} (R : A -> A -> Prop) (l1 l2 : list A) :
  StronglySorted R l1 -> StronglySorted R l2 ->
  (forall a b, In a l1 -> In b l2 -> R a b) ->
  StronglySorted R (l1 ++ l2).
Proof.
  intros H1 H2 Hx. induction H1 as [|a l1 Hs IH Hall]; simpl; [exact H2|].
  constructor.
  - apply IH. intros x y Hin Hy. apply Hx; [right; exact Hin|exact Hy].
  - apply Forall_app. split; [exact Hall|].
    apply Forall_forall. intros y Hy. apply Hx; [left; reflexivity|exact Hy].
Qed.

Lemma StronglySorted_map_rel {A B : Type} (R : A -> A -> Prop) (S : B -> B -> Prop)
    (f : A -> B) (l : list A) :
  (forall a b, In a l -> In b l -> R a b -> S (f a) (f b)) ->
  StronglySorted R l -> StronglySorted S (map f l).
Proof.
  intros Hf Hs. induction Hs as [|a l Hs IH Hall]; simpl; constructor.
  - apply IH. intros x y Hx Hy. apply Hf; right; assumption.
  - apply Forall_forall. intros y Hy. apply in_map_iff in Hy.
    destruct Hy as [x [<- Hx]]. rewrite Forall_forall in Hall.
    apply Hf; [left; reflexivity|right; exact Hx|apply Hall; exact Hx].
Qed.


Lemma insert_desc_perm {A : Type} (x : Q * A) (l : list (Q * A)) :
  Permutation (insert_desc x l) (x :: l).
Proof.
  induction l as [|y l IH]; simpl; [apply Permutation_refl|].
  destruct (Qlt_le_dec (fst x) (fst y)); [|apply Permutation_refl].
  apply Permutation_trans with (y :: x :: l).
  - apply perm_skip. exact IH.
  - apply perm_swap.
Qed.

Lemma sort_desc_perm {A : Type} (l : list (Q * A)) : Permutation (sort_desc l) l.
Proof.
  induction l as [|x l IH]; simpl; [apply Permutation_refl|].
  apply Permutation_trans with (x :: sort_desc l).
  - apply insert_desc_perm.
  - apply perm_skip. exact IH.
Qed.



(** ** [nlargest] on rows tagged with their position *)









Lemma dropped_nan_perm {A : Type} (key : A -> option Q) (l : list A) :
  Permutation (map snd (dropped key l) ++ nan_rows key l) l.
Proof.
  unfold dropped, nan_rows. induction l as [|a l IH]; simpl; [constructor|].
  destruct (key a); simpl.
  - apply perm_skip. exact IH.
  - apply Permutation_sym, Permutation_cons_app, Permutation_sym. exact IH.
Qed.


(** ** The pairs of the top-correlations table *)

Lemma pair_indices_In (n i j : nat) :
  In (i, j) (pair_indices n) <-> (i < j < n)%nat.
Proof.
  unfold pair_indices. rewrite in_flat_map. split.
  - intros [x [Hx Hin]]. apply in_map_iff in Hin. destruct Hin as [y [Heq Hy]].
    inversion Heq; subst. apply in_seq in Hy. lia.
  - intros H. exists i. split; [apply in_seq; lia|].
    apply in_map_iff. exists j. split; [reflexivity|]. apply in_seq. lia.
Qed.

Lemma seq_sorted (a k : nat) : StronglySorted lt (seq a k).
Proof.
  revert a. induction k as [|k IH]; intros a; simpl; constructor; [apply IH|].
  apply Forall_forall. intros y Hy. apply in_seq in Hy. lia.
Qed.

Lemma pair_rows_sorted (n k s : nat) :
  StronglySorted pair_lt
    (flat_map (fun i => map (fun j => (i, j)) (seq (i + 1) (n - (i + 1)))) (seq s k)).
Proof.
  revert s. induction k as [|k IH]; intros s; simpl; [constructor|].
  apply StronglySorted_app.
  - apply (StronglySorted_map_rel lt); [|apply seq_sorted].
    intros a b _ _ Hlt. right. simpl. split; [reflexivity|exact Hlt].
  - apply IH.
  - intros a b Ha Hb. apply in_map_iff in Ha. destruct Ha as [y [<- _]].
    apply in_flat_map in Hb. destruct Hb as [x [Hx Hb]].
    apply in_map_iff in Hb. destruct Hb as [z [<- _]].
    apply in_seq in Hx. left. simpl. lia.
Qed.

Lemma pair_indices_sorted (n : nat) : StronglySorted pair_lt (pair_indices n).
Proof. apply pair_rows_sorted. Qed.

Lemma strict_sorted_NoDup {A : Type} (R : A -> A -> Prop) (l : list A) :
  (forall a, ~ R a a) -> StronglySorted R l -> NoDup l.
Proof.
  intros Hirr. induction 1 as [|a l Hs IH Hall]; constructor; [|exact IH].
  intros Hin. rewrite Forall_forall in Hall. exact (Hirr a (Hall a Hin)).
Qed.

Lemma pair_indices_NoDup (n : nat) : NoDup (pair_indices n).
Proof.
  apply (strict_sorted_NoDup pair_lt); [|apply pair_indices_sorted].
  intros a [H|[_ H]]; lia.
Qed.

Lemma corr_pairs_nonempty (df : DataFrame) :
  (1 < List.length (numeric_cols df))%nat -> corr_pairs (corr_matrix df) <> [].
Proof.
  intros Hn Hnil. unfold corr_pairs in Hnil. apply map_eq_nil in Hnil.
  assert (Hin : In (0, 1)%nat (pair_indices (List.length (cm_columns (corr_matrix df))))).
  { apply pair_indices_In. change (cm_columns (corr_matrix df)) with (numeric_cols df). lia. }
  rewrite Hnil in Hin. contradiction.
Qed.

Lemma correlation_branch_shown (df : DataFrame) :
  (1 < List.length (numeric_cols df))%nat ->
  correlation_branch df =
  rendered df [PlotlyChart (FigHeatmap (corr_matrix df));
               Subheader "Top 5 Correlations";
               Dataframe (nlargest correlation 5 (corr_pairs (corr_matrix df)))].
Proof.
  intros Hn. unfold correlation_branch.
  apply Nat.ltb_lt in Hn as Hb. rewrite Hb.
  pose proof (corr_pairs_nonempty df Hn) as Hne. unfold corr_df_nlargest.
  destruct (corr_pairs (corr_matrix df)); [congruence|reflexivity].
Qed.

Lemma correlation_branch_guarded (df : DataFrame) :
  (List.length (numeric_cols df) < 2)%nat -> correlation_branch df = rendered df [].
Proof.
  intros Hn. unfold correlation_branch.
  assert (Hb : (1 <? List.length (numeric_cols df))%nat = false) by (apply Nat.ltb_ge; lia).
  rewrite Hb. reflexivity.
Qed.


(** ** NaN values in the top-correlations table *)

Lemma nlargest_length {A : Type} (key : A -> option Q) (n : nat) (rows : list A) :
  List.length (nlargest key n rows) = Nat.min n (List.length rows).
Proof.
  unfold nlargest. rewrite length_firstn. f_equal.
  rewrite <- (Permutation_length (dropped_nan_perm key rows)).
  rewrite !length_app, !length_map.
  rewrite (Permutation_length (sort_desc_perm (dropped key rows))). reflexivity.
Qed.

Lemma In_firstn {A : Type} (n : nat) (l : list A) (a : A) :
  In a (firstn n l) -> In a l.
Proof.
  revert l. induction n as [|n IH]; intros [|x l]; simpl; try tauto.
  intros [H|H]; [left; exact H|right; apply IH; exact H].
Qed.




(** ** Resampling *)








(** ** Loading *)

Lemma traverse_length {A B : Type} (f : A -> option B) (l : list A) (l' : list B) :
  traverse f l = Some l' -> List.length l' = List.length l.
Proof.
  revert l'. induction l as [|a l IH]; simpl; intros l' H.
  - inversion H. reflexivity.
  - destruct (f a); [|discriminate]. destruct (traverse f l); [|discriminate].
    inversion H; subst. simpl. rewrite (IH l0 eq_refl). reflexivity.
Qed.










Lemma filter_none {A : Type} (keep : A -> bool) (l : list A) :
  (forall a, In a l -> keep a = false) -> filter keep l = [].
Proof.
  induction l as [|a l IH]; intros H; simpl; [reflexivity|].
  rewrite (H a (or_introl eq_refl)). apply IH. intros b Hb. apply H. right. exact Hb.
Qed.


(** ** Exporting *)








(** ** Runs and sessions *)



(** The series the time-series view plots is the resampled series of the
    rows that carry a timestamp. *)
Lemma df_time_resamples (df : DataFrame) (date_col vc : string) (f : Frequency)
    (index : list (option Timestamp)) (v : Series) (rest1 rest2 : list Series) :
  getitem df date_col = ColDatetime index :: rest1 ->
  getitem df vc = v :: rest2 ->
  timed_rows index (to_float v) <> [] ->
  df_time df date_col (Some vc) f = inr (resample_mean f (timed_rows index (to_float v))).
Proof.
  intros Hd Hv Hne. unfold df_time. rewrite Hd, Hv.
  destruct index as [|t index].
  - simpl in Hne. congruence.
  - destruct (timed_rows (t :: index) (to_float v)); [congruence|reflexivity].
Qed.

(** ** The overview of a loaded frame *)














(** ** Select boxes, box plots and scatter plots *)

Lemma selectbox_some {A : Type} (w : Widgets) (label : string) (options : list A) :
  options <> [] -> exists a, selectbox w label options = Some a.
Proof.
  intros Hne. unfold selectbox.
  destruct (nth_error options (choice w label)) as [a|]; [exists a; reflexivity|].
  destruct options as [|a l]; [congruence|]. exists a. reflexivity.
Qed.

Lemma selectbox_none {A : Type} (w : Widgets) (label : string) (options : list A) :
  selectbox w label options = None <-> options = [].
Proof.
  split.
  - intros H. destruct options as [|a l]; [reflexivity|].
    destruct (selectbox_some w label (a :: l) ltac:(discriminate)) as [b Hb]. congruence.
  - intros ->. unfold selectbox. destruct (choice w label); reflexivity.
Qed.

(** X3: the box-plot view shows its warning exactly when the frame has no
    text column; otherwise it shows one box plot whose category axis is a
    text column of the frame and whose value axis, if any, is a numeric
    column.  The frame is left as it was. *)
Theorem box_plot_advisory (w : Widgets) (df : DataFrame) :
  (In (Warning "No categorical columns found for box plots") (br_elements (box_branch w df))
   <-> category_cols df = []) /\
  (category_cols df <> [] ->
   exists category_col numeric_col,
     br_elements (box_branch w df) = [PlotlyChart (FigBox category_col numeric_col)] /\
     In category_col (category_cols df) /\
     (forall y, numeric_col = Some y -> In y (numeric_cols df)) /\
     (numeric_col = None <-> numeric_cols df = [])) /\
  br_df (box_branch w df) = df /\ br_raised (box_branch w df) = None.
Proof.
  unfold box_branch.
  destruct (category_cols df) as [|c cs] eqn:Ecat.
  - simpl. split; [|split; [|split; reflexivity]].
    + split; [reflexivity|]. intros _. left. reflexivity.
    + intros H. congruence.
  - destruct (selectbox_some w "Select category column" (c :: cs) ltac:(discriminate))
      as [cat Hcat].
    cbn [List.length Nat.ltb Nat.leb]. rewrite Hcat. cbn [rendered br_elements br_df br_raised].
    split; [|split; [|split; reflexivity]].
    + split; [|discriminate]. intros [H|[]]. discriminate.
    + intros _. exists cat, (selectbox w "Select numeric column" (numeric_cols df)).
      split; [reflexivity|]. split; [eapply selectbox_In; exact Hcat|].
      split; [intros y Hy; eapply selectbox_In; exact Hy|apply selectbox_none].
Qed.


(** ** The frame and the temporal set after the fallback *)

Lemma upgraded_unparsed (s : Series) : fully_parses s = false -> upgraded s = s.
Proof.
  destruct s; simpl; try reflexivity. destruct (to_datetime xs); [discriminate|reflexivity].
Qed.

Lemma upgraded_length (s : Series) : series_length (upgraded s) = series_length s.
Proof.
  destruct s; simpl; try reflexivity.
  destruct (to_datetime xs) as [ts|] eqn:E; [|reflexivity].
  simpl. apply (traverse_length _ _ _ E).
Qed.

Lemma upgraded_temporal (s : Series) :
  dtype_of s <> Datetime64 ->
  dtype_in [Datetime64] (dtype_of (upgraded s)) = fully_parses s.
Proof.
  destruct s; simpl; intros H; try reflexivity; try congruence.
  destruct (to_datetime xs); reflexivity.
Qed.

Lemma no_datetime_column (df : DataFrame) (c : string * Series) :
  datetime_cols df = [] -> In c df -> dtype_of (snd c) <> Datetime64.
Proof.
  intros Hnone Hin Hd.
  assert (Hc : In (fst c) (datetime_cols df)).
  { apply in_columns_select. exists (snd c). rewrite Hd. split; [|reflexivity].
    destruct c. exact Hin. }
  rewrite Hnone in Hc. contradiction.
Qed.

Lemma fallback_frame (df : DataFrame) :
  NoDup (columns df) ->
  fs_df (datetime_fallback df) = df \/ fs_df (datetime_fallback df) = upgraded_frame df.
Proof.
  intros Hnd. destruct (datetime_cols df) as [|d l] eqn:E.
  - right. rewrite (datetime_fallback_scan df Hnd E). reflexivity.
  - left. rewrite datetime_fallback_guard by congruence. reflexivity.
Qed.

Lemma datetime_cols_upgraded (df : DataFrame) :
  datetime_cols df = [] ->
  datetime_cols (upgraded_frame df) = columns (filter (fun c => fully_parses (snd c)) df).
Proof.
  induction df as [|c df IH]; intros E; [reflexivity|].
  assert (Hc : dtype_of (snd c) <> Datetime64)
    by (apply (no_datetime_column (c :: df) c E); left; reflexivity).
  assert (Hrest : datetime_cols df = []).
  { unfold datetime_cols, select_dtypes, columns in E |- *. simpl in E.
    destruct (dtype_of (snd c)); simpl in E; try discriminate E; exact E. }
  specialize (IH Hrest).
  unfold datetime_cols, select_dtypes, upgraded_frame, columns in *.
  cbn [map filter fst snd]. rewrite (upgraded_temporal (snd c) Hc).
  destruct (fully_parses (snd c)); cbn [map fst]; rewrite IH; reflexivity.
Qed.

Lemma fallback_date_cols (df : DataFrame) :
  NoDup (columns df) ->
  fs_date_cols (datetime_fallback df) = datetime_cols (fs_df (datetime_fallback df)).
Proof.
  intros Hnd. destruct (datetime_cols df) as [|d l] eqn:E.
  - rewrite (datetime_fallback_scan df Hnd E). cbn [fs_df fs_date_cols].
    symmetry. apply datetime_cols_upgraded. exact E.
  - rewrite datetime_fallback_guard by congruence. reflexivity.
Qed.

Lemma columns_upgraded_frame (df : DataFrame) : columns (upgraded_frame df) = columns df.
Proof. unfold columns, upgraded_frame. rewrite map_map. reflexivity. Qed.

Lemma fallback_columns (df : DataFrame) :
  NoDup (columns df) -> columns (fs_df (datetime_fallback df)) = columns df.
Proof.
  intros Hnd. destruct (fallback_frame df Hnd) as [->| ->];
    [reflexivity|apply columns_upgraded_frame].
Qed.

Lemma upgraded_numeric (s : Series) :
  dtype_in [Float64; Int64] (dtype_of (upgraded s)) = dtype_in [Float64; Int64] (dtype_of s)
  /\ (dtype_in [Float64; Int64] (dtype_of s) = true -> upgraded s = s).
Proof.
  destruct s; simpl; try (split; [reflexivity|]; intros; try reflexivity; discriminate).
  destruct (to_datetime xs); simpl; split; try reflexivity; discriminate.
Qed.

Lemma numeric_cols_upgraded_frame (df : DataFrame) :
  select_dtypes [Float64; Int64] (upgraded_frame df) = select_dtypes [Float64; Int64] df.
Proof.
  unfold select_dtypes, upgraded_frame.
  induction df as [|[n s] df IH]; [reflexivity|]. cbn [map filter fst snd].
  destruct (upgraded_numeric s) as [E1 E2]. rewrite E1, IH.
  destruct (dtype_in [Float64; Int64] (dtype_of s)); [|reflexivity].
  rewrite (E2 eq_refl). reflexivity.
Qed.

(** X5: the fallback changes nothing but the representation of the text
    columns it converts: labels and their order, the numeric columns (so
    the list taken at line 63 still fits the frame used at line 136), the
    length of every column, and every column that is not text stay as they
    were. *)
Theorem fallback_keeps_shape (df : DataFrame) :
  NoDup (columns df) ->
  columns (fs_df (datetime_fallback df)) = columns df /\
  numeric_frame (fs_df (datetime_fallback df)) = numeric_frame df /\
  n_rows (fs_df (datetime_fallback df)) = n_rows df /\
  (forall i c, nth_error df i = Some c ->
     exists c', nth_error (fs_df (datetime_fallback df)) i = Some c' /\
                fst c' = fst c /\
                series_length (snd c') = series_length (snd c) /\
                (dtype_of (snd c) <> Object -> c' = c)).
Proof.
  intros Hnd. split; [apply fallback_columns; exact Hnd|].
  destruct (fallback_frame df Hnd) as [->| ->].
  - split; [reflexivity|]. split; [reflexivity|].
    intros i c Hi. exists c. repeat split; auto.
  - split; [apply numeric_cols_upgraded_frame|]. split.
    + destruct df as [|c df]; [reflexivity|]. simpl. apply upgraded_length.
    + intros i c Hi. exists (fst c, upgraded (snd c)).
      unfold upgraded_frame. rewrite nth_error_map, Hi. simpl.
      split; [reflexivity|]. split; [reflexivity|]. split; [apply upgraded_length|].
      intros Hobj. rewrite (upgraded_not_object _ Hobj). destruct c; reflexivity.
Qed.


(** ** The outcomes of the time-series view *)

Lemma fallback_numeric_frame (df : DataFrame) :
  NoDup (columns df) -> numeric_frame (fs_df (datetime_fallback df)) = numeric_frame df.
Proof.
  intros Hnd. destruct (fallback_frame df Hnd) as [->| ->];
    [reflexivity|apply numeric_cols_upgraded_frame].
Qed.

Lemma timeseries_warns_iff (w : Widgets) (df : DataFrame) :
  In (Warning "No datetime columns found for time series analysis")
     (br_elements (timeseries_branch w df))
  <-> fs_date_cols (datetime_fallback df) = [].
Proof.
  unfold timeseries_branch.
  destruct (fs_date_cols (datetime_fallback df)) as [|d l] eqn:E.
  - simpl. split; [reflexivity|]. intros _. left. reflexivity.
  - cbn [List.length Nat.ltb Nat.leb].
    destruct (selectbox w "Select date column" (d :: l)) as [dc|].
    + match goal with
      | |- context [df_time ?a ?b ?c ?e] => destruct (df_time a b c e)
      end; simpl; split; try discriminate; intros H; try contradiction;
        destruct H as [H|[]]; discriminate.
    + simpl. split; [contradiction|discriminate].
Qed.

(** X7: with distinct labels, the time-series view shows its warning
    exactly when the frame has no datetime column and no text column that
    parses in full; the view then leaves the frame as it was, raises
    nothing, and has tried every text column. *)
Theorem timeseries_advisory (w : Widgets) (df : DataFrame) :
  NoDup (columns df) ->
  (In (Warning "No datetime columns found for time series analysis")
      (br_elements (timeseries_branch w df))
   <-> datetime_cols df = [] /\ forall c, In c df -> fully_parses (snd c) = false) /\
  (In (Warning "No datetime columns found for time series analysis")
      (br_elements (timeseries_branch w df)) ->
   timeseries_branch w df
   = {| br_df := df;
        br_elements := [Warning "No datetime columns found for time series analysis"];
        br_raised := None;
        br_parsed := category_cols df |}).
Proof.
  intros Hnd.
  assert (Hiff : fs_date_cols (datetime_fallback df) = []
                 <-> datetime_cols df = [] /\ forall c, In c df -> fully_parses (snd c) = false).
  { destruct (datetime_cols df) as [|d l] eqn:E.
    - rewrite (datetime_fallback_scan df Hnd E). cbn [fs_date_cols]. split.
      + intros H. split; [reflexivity|]. intros c Hc.
        destruct (fully_parses (snd c)) eqn:Ef; [|reflexivity].
        unfold columns in H. apply map_eq_nil in H.
        assert (Hin : In c (filter (fun c => fully_parses (snd c)) df))
          by (apply filter_In; split; assumption).
        rewrite H in Hin. contradiction.
      + intros [_ H]. rewrite filter_none; [reflexivity|exact H].
    - rewrite datetime_fallback_guard by congruence. cbn [fs_date_cols]. rewrite E.
      split; [discriminate|intros [H _]; discriminate]. }
  split; [rewrite timeseries_warns_iff; exact Hiff|].
  intros Hw. apply timeseries_warns_iff in Hw. pose proof Hw as Hw'.
  apply Hiff in Hw'. destruct Hw' as [Hnone Hall].
  unfold timeseries_branch. rewrite Hw. cbn [List.length Nat.ltb Nat.leb].
  rewrite (datetime_fallback_scan df Hnd Hnone). cbn [fs_df fs_parsed]. f_equal.
  unfold upgraded_frame. rewrite <- (map_id df) at 2. apply map_ext_in.
  intros [n s] Hc. simpl. rewrite (upgraded_unparsed s (Hall _ Hc)). reflexivity.
Qed.

(** X8: with distinct labels, the time-series view raises KeyError exactly
    when some column is temporal after the fallback and the frame has no
    numeric column: the value select box is empty and its None is no label
    of the frame. *)
Theorem timeseries_keyerror (w : Widgets) (df : DataFrame) :
  NoDup (columns df) ->
  (br_raised (timeseries_branch w df) = Some "KeyError"
   <-> fs_date_cols (datetime_fallback df) <> [] /\ numeric_cols df = []).
Proof.
  intros Hnd. unfold timeseries_branch.
  destruct (fs_date_cols (datetime_fallback df)) as [|d l] eqn:E.
  - simpl. split; [discriminate|intros [H _]; congruence].
  - cbn [List.length Nat.ltb Nat.leb].
    destruct (selectbox w "Select date column" (d :: l)) as [dc|] eqn:Hsel.
    2:{ destruct (selectbox_some w "Select date column" (d :: l) ltac:(discriminate))
          as [a Ha]. congruence. }
    destruct (selectbox w "Select value column" (numeric_cols df)) as [vc|] eqn:Hval.
    + assert (Hnum : numeric_cols df <> []).
      { intros Hn. rewrite Hn in Hval.
        pose proof (proj2 (selectbox_none w "Select value column" (@nil string)) eq_refl).
        congruence. }
      assert (Hdc : exists index, getitem (fs_df (datetime_fallback df)) dc = [ColDatetime index]).
      { apply selectbox_In in Hsel. rewrite <- E, (fallback_date_cols df Hnd) in Hsel.
        apply in_columns_select in Hsel. destruct Hsel as [s [Hin Hd]].
        destruct s; try discriminate. exists xs.
        apply getitem_unique; [|exact Hin]. rewrite (fallback_columns df Hnd). exact Hnd. }
      assert (Hvc : exists v, getitem (fs_df (datetime_fallback df)) vc = [v]).
      { apply selectbox_In in Hval. unfold numeric_cols in Hval.
        change (select_dtypes [Float64; Int64] df) with (numeric_frame df) in Hval.
        rewrite <- (fallback_numeric_frame df Hnd) in Hval.
        apply in_columns_select in Hval. destruct Hval as [s [Hin _]]. exists s.
        apply getitem_unique; [|exact Hin]. rewrite (fallback_columns df Hnd). exact Hnd. }
      destruct Hdc as [index Hdc]. destruct Hvc as [v Hvc].
      unfold df_time. rewrite Hdc, Hvc.
      split; [|intros [_ H]; contradiction].
      destruct index as [|t index]; [discriminate|].
      destruct (timed_rows (t :: index) (to_float v)); simpl; discriminate.
    + apply selectbox_none in Hval. unfold df_time. simpl.
      split; [intros _; split; [discriminate|exact Hval]|reflexivity].
Qed.

(** ** The download *)



(** ** The size and the labels of the top-correlations table *)

Lemma pair_rows_length (n k s : nat) :
  (s + k = n)%nat ->
  (2 * List.length
         (flat_map (fun i => map (fun j => (i, j)) (seq (i + 1) (n - (i + 1)))) (seq s k))
   = k * (k - 1))%nat.
Proof.
  revert s. induction k as [|k IH]; intros s H; simpl; [reflexivity|].
  rewrite length_app, length_map, length_seq.
  specialize (IH (S s) ltac:(lia)). nia.
Qed.

Lemma pair_indices_length (n : nat) :
  (2 * List.length (pair_indices n) = n * (n - 1))%nat.
Proof. apply pair_rows_length. reflexivity. Qed.

(** X10: the correlation view never raises and leaves the frame as it
    was; with n numeric columns, n at least 2, the numeric columns form
    n(n-1)/2 pairs and the table shows five of them, or all when there are
    fewer. *)
Theorem top_table_size (df : DataFrame) :
  br_raised (correlation_branch df) = None /\
  br_df (correlation_branch df) = df /\
  ((1 < List.length (numeric_cols df))%nat ->
   List.length (corr_pairs (corr_matrix df))
   = (List.length (numeric_cols df) * (List.length (numeric_cols df) - 1) / 2)%nat /\
   List.length (shown_rows (br_elements (correlation_branch df)))
   = Nat.min 5 (List.length (numeric_cols df) * (List.length (numeric_cols df) - 1) / 2)).
Proof.
  assert (Hlen : List.length (corr_pairs (corr_matrix df))
                 = (List.length (numeric_cols df) * (List.length (numeric_cols df) - 1) / 2)%nat).
  { unfold corr_pairs. rewrite length_map.
    change (cm_columns (corr_matrix df)) with (numeric_cols df).
    rewrite <- (pair_indices_length (List.length (numeric_cols df))).
    rewrite Nat.mul_comm, Nat.div_mul by lia. reflexivity. }
  destruct (Nat.ltb_spec 1 (List.length (numeric_cols df))) as [Hn|Hn].
  - rewrite (correlation_branch_shown df Hn). split; [reflexivity|]. split; [reflexivity|].
    intros _. split; [exact Hlen|].
    unfold rendered, shown_rows. cbn [br_elements flat_map].
    rewrite app_nil_r, !app_nil_l.
    rewrite nlargest_length, Hlen. reflexivity.
  - rewrite (correlation_branch_guarded df ltac:(lia)). split; [reflexivity|].
    split; [reflexivity|]. intros H. lia.
Qed.

Lemma nlargest_of_perm {A : Type} (key : A -> option Q) (n : nat) (rows : list A) :
  exists l, Permutation l rows /\ nlargest key n rows = firstn n l.
Proof.
  exists (map snd (sort_desc (dropped key rows)) ++ nan_rows key rows). split.
  - apply Permutation_trans with (map snd (dropped key rows) ++ nan_rows key rows).
    + apply Permutation_app_tail, Permutation_map, sort_desc_perm.
    + apply dropped_nan_perm.
  - reflexivity.
Qed.

Lemma NoDup_firstn {A : Type} (n : nat) (l : list A) : NoDup l -> NoDup (firstn n l).
Proof.
  revert l. induction n as [|n IH]; intros [|a l] H; simpl; try constructor.
  - inversion H; subst. intros Hin. apply In_firstn in Hin. contradiction.
  - inversion H; subst. apply IH. assumption.
Qed.

(** The labels of a row of the pair list. *)
Lemma corr_row_labels (m : CorrMatrix) (ij : nat * nat) :
  (variable1 (corr_row m ij), variable2 (corr_row m ij))
  = (nth (fst ij) (cm_columns m) "", nth (snd ij) (cm_columns m) "").
Proof. reflexivity. Qed.

Lemma corr_pairs_labels_NoDup (df : DataFrame) :
  NoDup (columns df) ->
  NoDup (map (fun r => (variable1 r, variable2 r)) (corr_pairs (corr_matrix df))).
Proof.
  intros Hnd. unfold corr_pairs. rewrite map_map.
  change (cm_columns (corr_matrix df)) with (numeric_cols df).
  assert (Hnum : NoDup (numeric_cols df)) by (apply NoDup_columns_filter; exact Hnd).
  apply NoDup_map_NoDup_ForallPairs; [|apply pair_indices_NoDup].
  intros [i j] [i' j'] Hin Hin' Heq.
  apply pair_indices_In in Hin, Hin'. simpl in Heq.
  change (cm_columns (corr_matrix df)) with (numeric_cols df) in Heq.
  inversion Heq as [[H1 H2]].
  rewrite (NoDup_nth (numeric_cols df) "") in Hnum.
  f_equal; apply Hnum; try lia; assumption.
Qed.

(** X11: with distinct labels, every row of the table names two different
    numeric columns, the first stored before the second, together with
    their entry of the matrix, and no two rows name the same pair. *)
Theorem top_rows_name_distinct_pairs (df : DataFrame) :
  NoDup (columns df) ->
  (forall r, In r (shown_rows (br_elements (correlation_branch df))) ->
     exists i j,
       (i < j < List.length (numeric_cols df))%nat /\
       variable1 r = nth i (numeric_cols df) "" /\
       variable2 r = nth j (numeric_cols df) "" /\
       correlation r = iloc (corr_matrix df) i j /\
       variable1 r <> variable2 r) /\
  NoDup (map (fun r => (variable1 r, variable2 r))
             (shown_rows (br_elements (correlation_branch df)))).
Proof.
  intros Hnd.
  assert (Hnum : NoDup (numeric_cols df)) by (apply NoDup_columns_filter; exact Hnd).
  destruct (Nat.ltb_spec 1 (List.length (numeric_cols df))) as [Hn|Hn].
  - rewrite (correlation_branch_shown df Hn).
    unfold rendered, shown_rows. cbn [br_elements flat_map].
    rewrite app_nil_r, !app_nil_l.
    destruct (nlargest_of_perm correlation 5 (corr_pairs (corr_matrix df)))
      as [l [Hperm ->]].
    split.
    + intros r Hr. apply In_firstn in Hr. apply (Permutation_in _ Hperm) in Hr.
      unfold corr_pairs in Hr. apply in_map_iff in Hr. destruct Hr as [[i j] [<- Hij]].
      change (cm_columns (corr_matrix df)) with (numeric_cols df) in Hij.
      apply pair_indices_In in Hij. exists i, j.
      split; [exact Hij|]. split; [reflexivity|]. split; [reflexivity|].
      split; [reflexivity|]. simpl.
      change (cm_columns (corr_matrix df)) with (numeric_cols df).
      rewrite (NoDup_nth (numeric_cols df) "") in Hnum.
      intros Heq. apply Hnum in Heq; lia.
    + rewrite <- firstn_map. apply NoDup_firstn.
      apply (Permutation_NoDup (l := map (fun r => (variable1 r, variable2 r))
                                        (corr_pairs (corr_matrix df)))).
      * apply Permutation_map, Permutation_sym. exact Hperm.
      * apply corr_pairs_labels_NoDup. exact Hnd.
  - rewrite (correlation_branch_guarded df ltac:(lia)). simpl.
    split; [intros r []|constructor].
Qed.

(** ** Row order and resampling *)






(** ** The range of a correlation *)









(** ** Integers through export and load *)

Lemma na_values_are_no_integers :
  forallb (fun m => match parse_int m with None => true | Some _ => false end) na_values
  = true.
Proof. reflexivity. Qed.

Lemma parse_int_not_na (s : string) (z : Z) : parse_int s = Some z -> is_na s = false.
Proof.
  intros H. unfold is_na. destruct (existsb (String.eqb s) na_values) eqn:E; [|reflexivity].
  apply existsb_exists in E. destruct E as [m [Hm Heq]]. apply String.eqb_eq in Heq. subst m.
  pose proof na_values_are_no_integers as Hall. rewrite forallb_forall in Hall.
  specialize (Hall s Hm). rewrite H in Hall. discriminate.
Qed.

Lemma in_int64 (z : Z) :
  (int64_min <= z <= int64_max)%Z -> ((int64_min <=? z) && (z <=? int64_max))%Z = true.
Proof. intros [H1 H2]. apply andb_true_iff. split; apply Z.leb_le; assumption. Qed.

Lemma parse_int_unsigned (d : uint) :
  d <> Nil ->
  (int64_min <= Z.of_uint d <= int64_max)%Z ->
  parse_int (NilZero.string_of_uint d) = Some (Z.of_uint d).
Proof.
  intros Hd Hr. pose proof (NilZero.usu d Hd) as E.
  unfold parse_int.
  destruct d; [congruence|..];
    (remember (NilZero.string_of_uint _) as s eqn:Hs;
     destruct s as [|c s']; [discriminate Hs|];
     simpl in Hs; injection Hs as Hc _; subst c;
     cbv beta iota; rewrite E; cbn [option_map]; rewrite (in_int64 _ Hr); reflexivity).
Qed.

Lemma parse_int_string_of_Z (z : Z) :
  (int64_min <= z <= int64_max)%Z -> parse_int (string_of_Z z) = Some z.
Proof.
  intros Hr. unfold string_of_Z. destruct z as [|p|p]; simpl Z.to_int.
  - reflexivity.
  - assert (Ez : Z.of_uint (Pos.to_uint p) = Z.pos p)
      by (unfold Z.of_uint; rewrite DecimalPos.Unsigned.of_to; reflexivity).
    change (NilZero.string_of_int (Pos (Pos.to_uint p)))
      with (NilZero.string_of_uint (Pos.to_uint p)).
    rewrite parse_int_unsigned; [rewrite Ez; reflexivity| |rewrite Ez; exact Hr].
    apply DecimalPos.Unsigned.to_uint_nonnil.
  - assert (Ez : Z.of_uint (Pos.to_uint p) = Z.pos p)
      by (unfold Z.of_uint; rewrite DecimalPos.Unsigned.of_to; reflexivity).
    change (NilZero.string_of_int (Neg (Pos.to_uint p)))
      with (String "-" (NilZero.string_of_uint (Pos.to_uint p))).
    unfold parse_int. cbv beta iota.
    rewrite (NilZero.usu _ (DecimalPos.Unsigned.to_uint_nonnil p)). cbn [option_map].
    rewrite Ez. change (- Z.pos p)%Z with (Z.neg p). rewrite (in_int64 _ Hr). reflexivity.
Qed.

Lemma classify_exported_int (z : Z) :
  (int64_min <= z <= int64_max)%Z -> classify_field (string_of_Z z) = FInt z.
Proof.
  intros Hr. pose proof (parse_int_string_of_Z z Hr) as Hp.
  unfold classify_field. rewrite (parse_int_not_na _ _ Hp), Hp. reflexivity.
Qed.

(** X14: an integer column with at least one row survives export and
    load: the exported cells are read back as the same int64 column.
    (With no row, the cells read back as an empty text column.) *)
Theorem integer_column_reloads (zs : list Z) :
  zs <> [] ->
  Forall (fun z => (int64_min <= z <= int64_max)%Z) zs ->
  exists cells,
    render_column (ColInt zs) = Some cells /\
    infer_column cells = Some (ColInt zs).
Proof.
  intros Hne Hall. exists (map string_of_Z zs). split; [reflexivity|].
  assert (Hcs : map classify_field (map string_of_Z zs) = map FInt zs).
  { rewrite map_map. apply map_ext_in. intros z Hz. apply classify_exported_int.
    rewrite Forall_forall in Hall. apply Hall. exact Hz. }
  assert (Htext : existsb is_FText (map FInt zs) = false).
  { clear. induction zs as [|z zs IH]; simpl; [reflexivity|exact IH]. }
  assert (Hints : traverse (fun c => match c with FInt z => Some z | _ => None end)
                           (map FInt zs) = Some zs).
  { clear. induction zs as [|z zs IH]; simpl; [reflexivity|]. rewrite IH. reflexivity. }
  unfold infer_column. rewrite Hcs, Htext, Hints.
  destruct zs as [|z zs]; [congruence|reflexivity].
Qed.

End Dashboard.

(* ===================================================================== *)
(** * Worked examples                                                     *)
(* ===================================================================== *)

(** C8: the upload [csv_flags] loads with a boolean column, which is in
    none of the three lists: the lists do not cover the columns. *)
Lemma classification_omits_bool :
  read_csv csv_flags = Some df_flags /\ ~ classification_partitions df_flags.
Proof.
  split; [reflexivity|].
  intros H. specialize (H 0%nat). simpl in H.
  assert (Hlt : (0 < 2)%nat) by lia. specialize (H Hlt). discriminate H.
Qed.

Lemma classification_disjoint_witness :
  nth_error df_flags 1 = Some ("size", ColInt [3; 4]%Z) /\
  (count_true (memberships df_flags 1) <= 1)%nat /\
  (count_true (memberships df_flags 1) = 1%nat <-> Int64 <> Bool) /\
  (Int64 = Bool ->
   is_numeric df_flags 1 = false /\ is_temporal df_flags 1 = false
   /\ is_categorical df_flags 1 = false).
Proof.
  split; [reflexivity|].
  apply (classification_disjoint df_flags 1 ("size", ColInt [3; 4]%Z)).
  reflexivity.
Defined.

Lemma fallback_conversion_witness :
  NoDup (columns df_dates) /\
  (datetime_cols df_dates = [] ->
   fs_df (datetime_fallback _ guess_separator parse_ymd df_dates)
   = upgraded_frame _ guess_separator parse_ymd df_dates /\
   fs_date_cols (datetime_fallback _ guess_separator parse_ymd df_dates)
   = columns (filter (fun c => fully_parses _ guess_separator parse_ymd (snd c)) df_dates) /\
   fs_parsed (datetime_fallback _ guess_separator parse_ymd df_dates)
   = category_cols df_dates).
Proof.
  split.
  - apply nodupb_NoDup. reflexivity.
  - apply (fallback_conversion _ guess_separator parse_ymd df_dates).
    apply nodupb_NoDup. reflexivity.
Defined.

Example fallback_on_df_dates :
  datetime_fallback _ guess_separator parse_ymd df_dates =
  {| fs_df := [("date", ColDatetime [Some 1704067200000000000; Some 1704412800000000000]%Z);
               ("value", ColInt [10; 20]%Z);
               ("note", ColObject [Some "x"; Some "not-a-date"])];
     fs_date_cols := ["date"];
     fs_parsed := ["date"; "note"] |}.
Proof. reflexivity. Qed.

Lemma unparsed_column_stays_text_witness :
  nth_error (fs_df (datetime_fallback _ guess_separator parse_ymd df_dates)) 2
  = Some ("note", ColObject [Some "x"; Some "not-a-date"]) /\
  ~ In "note" (fs_date_cols (datetime_fallback _ guess_separator parse_ymd df_dates)).
Proof.
  pose proof (unparsed_column_stays_text _ guess_separator parse_ymd df_dates
                "note" [Some "x"; Some "not-a-date"] "not-a-date" 2) as H.
  assert (Hnd : NoDup (columns df_dates)) by (apply nodupb_NoDup; reflexivity).
  assert (Hin : In (Some "not-a-date") [Some "x"; Some "not-a-date"])
    by (right; left; reflexivity).
  destruct (H Hnd eq_refl Hin eq_refl) as [H1 [H2 _]].
  split; assumption.
Defined.







(** C4: [df_flags] has a single numeric column.  The correlation view
    renders nothing at all, where the box-plot and time-series views render
    a warning when they lack their columns. *)
Lemma correlation_view_without_advisory :
  numeric_cols df_flags = ["size"] /\
  run _ guess_separator parse_ymd (Some csv_flags) (widgets_for CorrelationAnalysis)
  = Some (rendered df_flags []) /\
  run _ guess_separator parse_ymd (Some csv_flags) (widgets_for BoxPlots)
  = Some (rendered df_flags [Warning "No categorical columns found for box plots"]) /\
  run _ guess_separator parse_ymd (Some csv_flags) (widgets_for TimeSeriesAnalysis)
  = Some (rendered df_flags [Warning "No datetime columns found for time series analysis"]).
Proof. repeat split. Qed.


(** The same through the script: the time-series view of [df_dates]. *)
Example timeseries_view_of_df_dates :
  br_elements (view _ guess_separator parse_ymd (widgets_for TimeSeriesAnalysis) df_dates)
  = [PlotlyChart (FigLine (resample_mean Day rows_jan))].
Proof. vm_compute. reflexivity. Qed.






(** Buckets on the calendar: Monday 1 January 2024 and Sunday 7 January
    fall in one week, labelled by that Sunday; Monday 8 January opens the
    next one; January is labelled by its last day. *)
Example week_buckets :
  bucket Week (days_from_civil 2024 1 1 * ns_per_day)%Z
  = bucket Week (days_from_civil 2024 1 7 * ns_per_day + 1)%Z /\
  bucket Week (days_from_civil 2024 1 8 * ns_per_day)%Z
  = (bucket Week (days_from_civil 2024 1 1 * ns_per_day)%Z + 1)%Z /\
  civil_from_days (day_of (bucket_label Week
                             (bucket Week (days_from_civil 2024 1 1 * ns_per_day)%Z)))
  = (2024, 1, 7)%Z.
Proof. repeat split. Qed.

Example month_year_buckets :
  civil_from_days (day_of (bucket_label Month
                             (bucket Month (days_from_civil 2024 2 10 * ns_per_day)%Z)))
  = (2024, 2, 29)%Z /\
  civil_from_days (day_of (bucket_label Year
                             (bucket Year (days_from_civil 2023 7 4 * ns_per_day)%Z)))
  = (2023, 12, 31)%Z /\
  List.length (resample_mean Month
                 [((days_from_civil 2023 11 30 * ns_per_day)%Z, Some 1);
                  ((days_from_civil 2024 2 1 * ns_per_day)%Z, Some 2)]) = 4%nat.
Proof. repeat split. Qed.

(** Equal values keep the order in which the pairs were met. *)
Example ties_keep_column_order :
  shown_rows (br_elements (correlation_branch
    [("x", ColInt [1; 2; 3]%Z); ("y", ColInt [2; 4; 6]%Z); ("z", ColInt [3; 6; 9]%Z)]))
  = [ {| variable1 := "x"; variable2 := "y"; correlation := Some 1 |};
      {| variable1 := "x"; variable2 := "z"; correlation := Some 1 |};
      {| variable1 := "y"; variable2 := "z"; correlation := Some 1 |} ].
Proof. vm_compute. reflexivity. Qed.

(** A date column written with slashes is exported with dashes once the
    time-series view has converted it. *)
Example converted_dates_exported_in_iso_form :
  option_map (fun r => last (br_elements r) (Info ""))
    (run _ guess_separator parse_ymd
       (Some {| csv_header := ["date"; "value"];
                csv_rows := [["2024/01/01"; "10"]; ["2024/01/05"; "20"]] |})
       {| viz_type := TimeSeriesAnalysis; choice := fun _ => 0%nat;
          download_clicked := true |})
  = Some (DownloadButton
            {| csv_header := ["date"; "value"];
               csv_rows := [["2024-01-01"; "10"]; ["2024-01-05"; "20"]] |}).
Proof. vm_compute. reflexivity. Qed.

(** ** Witnesses of the further properties *)



Lemma box_plot_advisory_witness :
  category_cols df_dates <> [] /\
  exists category_col numeric_col,
    br_elements (box_branch (widgets_for BoxPlots) df_dates)
    = [PlotlyChart (FigBox category_col numeric_col)]
    /\ In category_col (category_cols df_dates).
Proof.
  assert (Hne : category_cols df_dates <> []) by discriminate.
  split; [exact Hne|].
  destruct (box_plot_advisory (widgets_for BoxPlots) df_dates) as [_ [H _]].
  destruct (H Hne) as [c [n [H1 [H2 _]]]]. exists c, n. split; assumption.
Defined.

Lemma fallback_keeps_shape_witness :
  NoDup (columns df_dates) /\
  columns (fs_df (datetime_fallback _ guess_separator parse_ymd df_dates)) = columns df_dates /\
  n_rows (fs_df (datetime_fallback _ guess_separator parse_ymd df_dates)) = n_rows df_dates.
Proof.
  assert (Hnd : NoDup (columns df_dates)) by (apply nodupb_NoDup; reflexivity).
  split; [exact Hnd|].
  destruct (fallback_keeps_shape _ guess_separator parse_ymd df_dates Hnd)
    as [H1 [_ [H3 _]]].
  split; assumption.
Defined.


Lemma timeseries_advisory_witness :
  NoDup (columns df_flags) /\
  (datetime_cols df_flags = [] /\
   forall c, In c df_flags -> fully_parses _ guess_separator parse_ymd (snd c) = false) /\
  In (Warning "No datetime columns found for time series analysis")
     (br_elements (timeseries_branch _ guess_separator parse_ymd
                     (widgets_for TimeSeriesAnalysis) df_flags)).
Proof.
  assert (Hnd : NoDup (columns df_flags)) by (apply nodupb_NoDup; reflexivity).
  assert (Hc : datetime_cols df_flags = [] /\
               forall c, In c df_flags ->
                 fully_parses _ guess_separator parse_ymd (snd c) = false).
  { split; [reflexivity|]. intros c [<-|[<-|[]]]; reflexivity. }
  split; [exact Hnd|]. split; [exact Hc|].
  destruct (timeseries_advisory _ guess_separator parse_ymd
              (widgets_for TimeSeriesAnalysis) df_flags Hnd) as [H _].
  apply H. exact Hc.
Defined.

Lemma timeseries_keyerror_witness :
  NoDup (columns df_only_dates) /\
  numeric_cols df_only_dates = [] /\
  br_raised (timeseries_branch _ guess_separator parse_ymd
               (widgets_for TimeSeriesAnalysis) df_only_dates) = Some "KeyError".
Proof.
  assert (Hnd : NoDup (columns df_only_dates)) by (apply nodupb_NoDup; reflexivity).
  split; [exact Hnd|]. split; [reflexivity|].
  apply (timeseries_keyerror _ guess_separator parse_ymd
           (widgets_for TimeSeriesAnalysis) df_only_dates Hnd).
  split; [discriminate|reflexivity].
Defined.


Lemma top_table_size_witness :
  (1 < List.length (numeric_cols df_const))%nat /\
  List.length (corr_pairs (corr_matrix df_const)) = 6%nat /\
  List.length (shown_rows (br_elements (correlation_branch df_const))) = 5%nat.
Proof.
  assert (Hn : (1 < List.length (numeric_cols df_const))%nat) by (simpl; lia).
  split; [exact Hn|].
  destruct (top_table_size df_const) as [_ [_ H]].
  destruct (H Hn) as [H1 H2]. split; [exact H1|exact H2].
Defined.

Lemma top_rows_name_distinct_pairs_witness :
  NoDup (columns df_const) /\
  NoDup (map (fun r => (variable1 r, variable2 r))
             (shown_rows (br_elements (correlation_branch df_const)))).
Proof.
  assert (Hnd : NoDup (columns df_const)) by (apply nodupb_NoDup; reflexivity).
  split; [exact Hnd|].
  destruct (top_rows_name_distinct_pairs df_const Hnd) as [_ H]. exact H.
Defined.



Lemma integer_column_reloads_witness :
  [7; -12]%Z <> [] /\
  Forall (fun z => (int64_min <= z <= int64_max)%Z) [7; -12]%Z /\
  exists cells,
    render_column (ColInt [7; -12]%Z) = Some cells /\
    infer_column cells = Some (ColInt [7; -12]%Z).
Proof.
  assert (Hne : [7; -12]%Z <> []) by discriminate.
  assert (Hall : Forall (fun z => (int64_min <= z <= int64_max)%Z) [7; -12]%Z).
  { repeat constructor; unfold int64_min, int64_max; simpl; lia. }
  split; [exact Hne|]. split; [exact Hall|].
  exact (integer_column_reloads [7; -12]%Z Hne Hall).
Defined.
